(** * Reentry Employment Accessibility Index: the calculator, verified

    A shallow embedding of [src/reai_calculator.py] (class [REAICalculator])
    and the properties its specification states about it.

    Modelling conventions.
    - A [float64] is an exact rational ([Q]): arithmetic does not round and
      there is no infinity.  The one NaN the code can produce on numeric
      input, the minimum of an empty series, is the [None] of
      [series_min]/[series_max].  Equality of values is [Qeq] (written [==]).
    - A [pandas.Series] of numbers is a [list Q]; all series of one frame
      share its index, so element-wise arithmetic is [zip_with].
    - A [pandas.DataFrame] is a finite map from column names to columns.
      Columns are typed as pandas types them: [float64], [int64] or
      [object] (strings).  Arithmetic on an [object] column raises
      [TypeError].
    - A Python [dict] of weights is an association list: insertion order is
      observable ([sum(d.values())], [d.keys()]), keys are unique ([dict_wf]).
    - Exceptions are the [Error] results of the [result] monad.  The frame
      handed to [calculate_reai] is an object in a store, named by a
      reference, because the method mutates it in place and hands the same
      reference back. *)

From Stdlib Require Import QArith Qabs Qminmax Qround Lqa Lia.
From Stdlib Require Import Permutation Sorted.
From stdpp Require Import gmap strings list fin_maps.

Local Open Scope Q_scope.

(** ** Exceptions and the error monad *)

(** The pieces of a formatted message (an f-string): literal text, an
    interpolated string, an interpolated float and an interpolated length. *)
Inductive piece : Type :=
| Lit (s : string)
| Str (s : string)
| Float (q : Q)
| Int (n : nat).

Inductive exn : Type :=
| ValueError (msg : list piece)
| KeyError (key : string)
| TypeError (column : string).

Inductive result (A : Type) : Type :=
| OK (a : A)
| Error (e : exn).
Arguments OK {A} a.
Arguments Error {A} e.

Definition bind {A B : Type} (k : A -> result B) (r : result A) : result B :=
  match r with
  | OK a => k a
  | Error e => Error e
  end.

#[global] Instance result_ret : MRet result := fun A a => OK a.
#[global] Instance result_bind : MBind result := fun A B k r => bind k r.

Definition is_ok {A : Type} (r : result A) : Prop := exists a, r = OK a.

Lemma bind_OK {A B : Type} (r : result A) (k : A -> result B) (b : B) :
  r ≫= k = OK b -> exists a, r = OK a /\ k a = OK b.
Proof. destruct r as [a|e]; simpl; [eauto | discriminate]. Qed.

(** ** Python dictionaries of weights *)

Definition dict : Type := list (string * Q).

Definition dict_wf {V : Type} (d : list (string * V)) : Prop := NoDup (map fst d).

Fixpoint dict_get {V : Type} (d : list (string * V)) (k : string) : option V :=
  match d with
  | [] => None
  | (k', v) :: d' => if String.eqb k' k then Some v else dict_get d' k
  end.

(** [d[k]] *)
Definition getitem (d : dict) (k : string) : result Q :=
  match dict_get d k with
  | Some v => OK v
  | None => Error (KeyError k)
  end.

Definition keys {V : Type} (d : list (string * V)) : list string := map fst d.
Definition values {V : Type} (d : list (string * V)) : list V := map snd d.

(** Python's [sum]: start at 0, add from the left. *)
Definition py_sum (l : list Q) : Q := fold_left Qplus l 0.

(** [numpy.isclose(a, b)] with its default tolerances
    [rtol = 1e-05] and [atol = 1e-08]. *)
Definition rtol : Q := 1e-5.
Definition atol : Q := 1e-8.
Definition isclose (a b : Q) : bool :=
  Qle_bool (Qabs (a - b)) (atol + rtol * Qabs b).

(** ** Series *)

Definition series_min (s : list Q) : option Q :=
  match s with
  | [] => None
  | x :: t => Some (fold_left Qmin t x)
  end.

Definition series_max (s : list Q) : option Q :=
  match s with
  | [] => None
  | x :: t => Some (fold_left Qmax t x)
  end.

Definition series_add (a b : list Q) : list Q := zip_with Qplus a b.
Definition series_mul (a : list Q) (c : Q) : list Q := map (fun v => v * c) a.
Definition series_div (a : list Q) (c : Q) : list Q := map (fun v => v / c) a.
Definition series_sub (a : list Q) (c : Q) : list Q := map (fun v => v - c) a.
(** [c - series] *)
Definition series_rsub (c : Q) (a : list Q) : list Q := map (fun v => c - v) a.

(** ** The calculator *)

Record REAICalculator : Type := {
  default_weights : dict;
  weights : dict
}.

Definition _validate_weights (self : REAICalculator) : result unit :=
  let total := py_sum (values (weights self)) in
  if negb (isclose total 1.0)
  then Error (ValueError [Lit "Weights must sum to 1.0, got "; Float total])
  else OK tt.

(** Truth value of a dict: the empty dict is falsy (and so is [None]). *)
Definition truthy (d : dict) : bool :=
  match d with
  | [] => false
  | _ :: _ => true
  end.

Definition __init__ (w : option dict) : result REAICalculator :=
  let default_weights :=
    [("transportation"%string, 0.30); ("labor_market"%string, 0.35);
     ("licensing"%string, 0.20); ("policy"%string, 0.15)] in
  let self :=
    {| default_weights := default_weights;
       weights :=
         match w with
         | Some d => if truthy d then d else default_weights
         | None => default_weights
         end |} in
  _ ← _validate_weights self;
  OK self.

(** [normalize_score]: min-max scaling to 0..100.  On the empty series the
    minimum is NaN, the comparison [max_val == min_val] is false and the
    element-wise arithmetic yields the empty series. *)
Definition normalize_score (series : list Q) (reverse : bool) : list Q :=
  match series_min series, series_max series with
  | Some min_val, Some max_val =>
      if Qeq_bool max_val min_val
      then repeat 50.0 (length series)
      else
        let normalized :=
          series_mul (series_div (series_sub series min_val) (max_val - min_val)) 100 in
        if reverse then series_rsub 100 normalized else normalized
  | _, _ => []
  end.

(** ** Data frames *)

Inductive column : Type :=
| FloatCol (l : list Q)
| IntCol (l : list Z)
| ObjCol (l : list string).

Abbreviation DataFrame := (gmap string column).

(** [df[name]] *)
Definition df_getitem (df : DataFrame) (name : string) : result column :=
  match df !! name with
  | Some c => OK c
  | None => Error (KeyError name)
  end.

(** The numbers of a column entering arithmetic; [name] only labels the
    error. *)
Definition to_float (name : string) (c : column) : result (list Q) :=
  match c with
  | FloatCol l => OK l
  | IntCol l => OK (map inject_Z l)
  | ObjCol _ => Error (TypeError name)
  end.

Definition column_length (c : column) : nat :=
  match c with
  | FloatCol l => length l
  | IntCol l => length l
  | ObjCol l => length l
  end.

(** Every column of a frame has one entry per row. *)
Definition df_wf (n : nat) (df : DataFrame) : Prop :=
  forall name c, df !! name = Some c -> column_length c = n.

(** ** Component scorers *)

Definition calculate_transportation_score (self : REAICalculator) (df : DataFrame)
  : result (list Q) :=
  c ← df_getitem df "pct_no_vehicle";
  v ← to_float "pct_no_vehicle" c;
  let vehicle_score := normalize_score (series_rsub 100 v) false in
  c ← df_getitem df "avg_commute_time";
  v ← to_float "avg_commute_time" c;
  let commute_score := normalize_score v true in
  c ← df_getitem df "pct_broadband";
  v ← to_float "pct_broadband" c;
  let broadband_score := normalize_score v false in
  let transport_score :=
    series_div (series_add (series_add vehicle_score commute_score) broadband_score) 3 in
  OK transport_score.

Definition calculate_labor_market_score (self : REAICalculator) (df : DataFrame)
  : result (list Q) :=
  c ← df_getitem df "unemployment_rate";
  v ← to_float "unemployment_rate" c;
  let unemployment_score := normalize_score v true in
  c ← df_getitem df "employment_growth";
  v ← to_float "employment_growth" c;
  let employment_growth_score := normalize_score v false in
  c ← df_getitem df "poverty_rate";
  v ← to_float "poverty_rate" c;
  let poverty_score := normalize_score v true in
  let labor_score :=
    series_add
      (series_add (series_mul unemployment_score 0.40)
                  (series_mul employment_growth_score 0.30))
      (series_mul poverty_score 0.30) in
  OK labor_score.

Definition calculate_licensing_score (self : REAICalculator) (df : DataFrame)
  : result (list Q) :=
  c ← df_getitem df "licensing_burden_index";
  v ← to_float "licensing_burden_index" c;
  let licensing_score := normalize_score v true in
  OK licensing_score.

Definition calculate_policy_score (self : REAICalculator) (df : DataFrame)
  : result (list Q) :=
  c ← df_getitem df "ban_the_box_score";
  v ← to_float "ban_the_box_score" c;
  let btb_score := normalize_score v false in
  c ← df_getitem df "fair_chance_score";
  v ← to_float "fair_chance_score" c;
  let fair_chance_score := normalize_score v false in
  let policy_score := series_div (series_add btb_score fair_chance_score) 2 in
  OK policy_score.

(** ** Ranking: [Series.rank(ascending=False, method='min').astype(int)] *)

Section Sorting.
Variable le : Q -> Q -> bool.

Fixpoint insert_by (x : Q) (l : list Q) : list Q :=
  match l with
  | [] => [x]
  | y :: t => if le x y then x :: y :: t else y :: insert_by x t
  end.

Definition sort_by (l : list Q) : list Q := foldr insert_by [] l.
End Sorting.

(** Highest value first. *)
Definition sort_desc : list Q -> list Q := sort_by (fun a b => Qle_bool b a).
(** Lowest value first. *)
Definition sort_asc : list Q -> list Q := sort_by Qle_bool.

(** Position of the first entry equal to [x]. *)
Fixpoint first_index (x : Q) (l : list Q) : nat :=
  match l with
  | [] => 0
  | y :: t => if Qeq_bool y x then 0 else S (first_index x t)
  end.

(** Descending rank: sort from the highest value down; a value's rank is the
    1-based position of the first member of its tie group ([method='min']).
    pandas returns the ranks as floats. *)
Definition rank_desc_min (s : list Q) : list Q :=
  let sorted := sort_desc s in
  map (fun v => inject_Z (Z.of_nat (S (first_index v sorted)))) s.

(** [astype(int)]: truncation toward zero. *)
Definition astype_int (s : list Q) : list Z :=
  map (fun q => Z.quot (Qnum q) (Zpos (Qden q))) s.

(** ** [calculate_reai]: the frame is mutated in place

    The frame is an object of the store; the method receives a reference,
    assigns six columns to the object behind it and returns the reference.
    An exception leaves the assignments made so far in place. *)

Definition ref : Type := nat.
Abbreviation store := (gmap ref DataFrame).

Definition M (A : Type) : Type := store -> result A * store.

Definition M_ret {A : Type} (a : A) : M A := fun h => (OK a, h).
Definition M_bind {A B : Type} (k : A -> M B) (m : M A) : M B :=
  fun h =>
    match m h with
    | (OK a, h') => k a h'
    | (Error e, h') => (Error e, h')
    end.

#[global] Instance M_mret : MRet M := @M_ret.
#[global] Instance M_mbind : MBind M := @M_bind.

(** The frame behind a reference. *)
Definition deref (h : store) (df : ref) : DataFrame := default ∅ (h !! df).

(** Evaluate a read-only computation on the frame behind [df]. *)
Definition reading {A : Type} (df : ref) (f : DataFrame -> result A) : M A :=
  fun h => (f (deref h df), h).

(** [df[name] = c] *)
Definition df_setitem (df : ref) (name : string) (c : column) : M unit :=
  fun h => (OK tt, <[df := <[name := c]> (deref h df)]> h).

Definition calculate_reai (self : REAICalculator) (df : ref) : M ref :=
  s ← reading df (calculate_transportation_score self);
  _ ← df_setitem df "transportation_score" (FloatCol s);
  s ← reading df (calculate_labor_market_score self);
  _ ← df_setitem df "labor_market_score" (FloatCol s);
  s ← reading df (calculate_licensing_score self);
  _ ← df_setitem df "licensing_score" (FloatCol s);
  s ← reading df (calculate_policy_score self);
  _ ← df_setitem df "policy_score" (FloatCol s);
  reai ← reading df (fun d =>
    c ← df_getitem d "transportation_score";
    w ← getitem (weights self) "transportation";
    t ← to_float "transportation_score" c;
    let acc := series_mul t w in
    c ← df_getitem d "labor_market_score";
    w ← getitem (weights self) "labor_market";
    t ← to_float "labor_market_score" c;
    let acc := series_add acc (series_mul t w) in
    c ← df_getitem d "licensing_score";
    w ← getitem (weights self) "licensing";
    t ← to_float "licensing_score" c;
    let acc := series_add acc (series_mul t w) in
    c ← df_getitem d "policy_score";
    w ← getitem (weights self) "policy";
    t ← to_float "policy_score" c;
    let acc := series_add acc (series_mul t w) in
    OK acc);
  _ ← df_setitem df "REAI" (FloatCol reai);
  r ← reading df (fun d =>
    c ← df_getitem d "REAI";
    t ← to_float "REAI" c;
    OK (astype_int (rank_desc_min t)));
  _ ← df_setitem df "REAI_rank" (IntCol r);
  mret df.

(** ** [sensitivity_analysis]

    The method reads the frame and builds a new one, [results]; it is
    returned only when the loop over the scenarios completes. *)

Definition scenarios : Type := list (string * dict).

Definition scenario_step (df : DataFrame) (results : DataFrame)
    (scenario : string * dict) : result DataFrame :=
  let '(scenario_name, weights) := scenario in
  if negb (isclose (py_sum (values weights)) 1.0)
  then Error (ValueError [Lit "Weights for "; Str scenario_name; Lit " must sum to 1.0"])
  else
    c ← df_getitem df "transportation_score";
    w ← getitem weights "transportation";
    t ← to_float "transportation_score" c;
    let acc := series_mul t w in
    c ← df_getitem df "labor_market_score";
    w ← getitem weights "labor_market";
    t ← to_float "labor_market_score" c;
    let acc := series_add acc (series_mul t w) in
    c ← df_getitem df "licensing_score";
    w ← getitem weights "licensing";
    t ← to_float "licensing_score" c;
    let acc := series_add acc (series_mul t w) in
    c ← df_getitem df "policy_score";
    w ← getitem weights "policy";
    t ← to_float "policy_score" c;
    let scenario_reai := series_add acc (series_mul t w) in
    let results := <[scenario_name +:+ "_REAI" := FloatCol scenario_reai]> results in
    let results :=
      <[scenario_name +:+ "_rank" := IntCol (astype_int (rank_desc_min scenario_reai))]>
        results in
    OK results.

(** The [for] loop over [weight_scenarios.items()]. *)
Fixpoint scenario_loop (df : DataFrame) (weight_scenarios : scenarios)
    (results : DataFrame) : result DataFrame :=
  match weight_scenarios with
  | [] => OK results
  | scenario :: rest =>
      results ← scenario_step df results scenario;
      scenario_loop df rest results
  end.

Definition sensitivity_analysis (self : REAICalculator) (df : DataFrame)
    (weight_scenarios : scenarios) : result DataFrame :=
  let results : DataFrame := ∅ in
  c ← df_getitem df "county";
  let results := <["county" := c]> results in
  c ← df_getitem df "REAI";
  let results := <["base_REAI" := c]> results in
  c ← df_getitem df "REAI_rank";
  let results := <["base_rank" := c]> results in
  scenario_loop df weight_scenarios results.

(** ** [get_summary_statistics]

    [DataFrame.describe()] keeps the numeric columns and computes eight
    statistics of each; [.T] turns every described column into a row.  The
    standard deviation is the square root of the sample variance: the cell
    keeps the variance under a symbolic root.  Statistics that pandas
    reports as NaN (no rows, or a single row for the deviation) are [NaN]. *)

Inductive cell : Type :=
| Num (q : Q)
| Sqrt (q : Q)
| NaN.

Definition count (s : list Q) : cell := Num (inject_Z (Z.of_nat (length s))).

Definition mean_value (s : list Q) : Q := py_sum s / inject_Z (Z.of_nat (length s)).

Definition mean (s : list Q) : cell :=
  match s with
  | [] => NaN
  | _ => Num (mean_value s)
  end.

(** Sample standard deviation ([ddof = 1]). *)
Definition std (s : list Q) : cell :=
  match s with
  | [] | [_] => NaN
  | _ =>
      let m := mean_value s in
      Sqrt (py_sum (map (fun v => (v - m) * (v - m)) s)
            / inject_Z (Z.of_nat (length s - 1)))
  end.

Definition opt_cell (o : option Q) : cell :=
  match o with
  | Some q => Num q
  | None => NaN
  end.

(** Percentile with linear interpolation between closest ranks. *)
Definition quantile (p : Q) (s : list Q) : cell :=
  match sort_asc s with
  | [] => NaN
  | (x :: _) as sorted =>
      let pos := p * inject_Z (Z.of_nat (length s - 1)) in
      let lo := Z.to_nat (Qfloor pos) in
      let a := nth lo sorted x in
      let b := nth (S lo) sorted a in
      Num (a + (pos - inject_Z (Qfloor pos)) * (b - a))
  end.

(** A frame whose column order matters: the row labels and the columns. *)
Record Summary : Type := {
  index : list string;
  columns : list (string * list cell)
}.

Definition is_numeric (c : column) : option (list Q) :=
  match c with
  | FloatCol l => Some l
  | IntCol l => Some (map inject_Z l)
  | ObjCol _ => None
  end.

(** [df.describe().T] for a selection of named columns. *)
Definition describe_T (selection : list (string * column)) : Summary :=
  let rows := omap (fun '(name, c) => pair name <$> is_numeric c) selection in
  let stat (f : list Q -> cell) := map (fun '(_, s) => f s) rows in
  {| index := map fst rows;
     columns :=
       [("count"%string, stat count); ("mean"%string, stat mean);
        ("std"%string, stat std);
        ("min"%string, stat (fun s => opt_cell (series_min s)));
        ("25%"%string, stat (quantile 0.25)); ("50%"%string, stat (quantile 0.5));
        ("75%"%string, stat (quantile 0.75));
        ("max"%string, stat (fun s => opt_cell (series_max s)))] |}.

(** [summary[name] = values], for a column the frame does not have yet. *)
Definition summary_setitem (summary : Summary) (name : string) (vals : list cell)
  : result Summary :=
  if negb (length vals =? length (index summary))%nat
  then Error (ValueError [Lit "Length of values ("; Int (length vals);
                          Lit ") does not match length of index (";
                          Int (length (index summary)); Lit ")"])
  else OK {| index := index summary;
             columns := columns summary ++ [(name, vals)] |}.

(** [summary[[names]]] *)
Definition summary_select (summary : Summary) (names : list string) : result Summary :=
  cols ← mapM (fun name =>
                 match dict_get (columns summary) name with
                 | Some c => OK (name, c)
                 | None => Error (KeyError name)
                 end) names;
  OK {| index := index summary; columns := cols |}.

Definition get_summary_statistics (self : REAICalculator) (df : DataFrame)
  : result Summary :=
  let score_columns :=
    ["REAI"; "transportation_score"; "labor_market_score";
     "licensing_score"; "policy_score"]%string in
  selection ← mapM (fun name => c ← df_getitem df name; OK (name, c)) score_columns;
  let summary := describe_T selection in
  ws ← mapM (fun k => getitem (weights self) k) (keys (weights self));
  summary ← summary_setitem summary "weight" (map Num ([1.0] ++ ws));
  summary_select summary ["weight"; "mean"; "std"; "min"; "25%"; "50%"; "75%"; "max"]%string.

(** ** The engine with the default weights *)

Definition the_default : REAICalculator :=
  {| default_weights :=
       [("transportation"%string, 0.30); ("labor_market"%string, 0.35);
        ("licensing"%string, 0.20); ("policy"%string, 0.15)];
     weights :=
       [("transportation"%string, 0.30); ("labor_market"%string, 0.35);
        ("licensing"%string, 0.20); ("policy"%string, 0.15)] |}.

(** * Vocabulary of the statements and example data *)

(** A series is constant when any two of its entries are equal. *)
Definition constant (s : list Q) : Prop :=
  forall x y, x ∈ s -> y ∈ s -> x == y.

Definition in_range (v : Q) : Prop := 0 <= v /\ v <= 100.



Definition accepted_weights : dict :=
  [("transportation"%string, 0.2); ("labor_market"%string, 0.5);
   ("licensing"%string, 0.15); ("policy"%string, 0.15)].

Definition rejected_weights : dict :=
  [("transportation"%string, 0.2); ("labor_market"%string, 0.5);
   ("licensing"%string, 0.15); ("policy"%string, 0.1)].


(** Number of entries strictly above [x]. *)
Fixpoint count_above (x : Q) (l : list Q) : nat :=
  match l with
  | [] => 0
  | y :: t => (if Qle_bool y x then 0 else 1) + count_above x t
  end.

Definition descending : list Q -> Prop := StronglySorted (fun a b => b <= a).

(** The weighted sum of the four component scores. *)
Definition composite (t l li p : list Q) (wt wl wli wp : Q) : list Q :=
  series_add
    (series_add (series_add (series_mul t wt) (series_mul l wl)) (series_mul li wli))
    (series_mul p wp).

(** The frame after the six assignments, in the order the method makes
    them. *)
Definition attach (d : DataFrame) (ts ls lis ps reai : list Q) : DataFrame :=
  <["REAI_rank" := IntCol (astype_int (rank_desc_min reai))]>
    (<["REAI" := FloatCol reai]>
      (<["policy_score" := FloatCol ps]>
        (<["licensing_score" := FloatCol lis]>
          (<["labor_market_score" := FloatCol ls]>
            (<["transportation_score" := FloatCol ts]> d))))).

Definition between (lo hi v : Q) : Prop := lo <= v /\ v <= hi.

Definition derived_columns : list string :=
  ["transportation_score"; "labor_market_score"; "licensing_score";
   "policy_score"; "REAI"; "REAI_rank"]%string.

(** Reduce the fractions of a float column, to compare computed columns
    with literals. *)
Definition qred_col (c : column) : column :=
  match c with
  | FloatCol l => FloatCol (map Qred l)
  | _ => c
  end.

(** Run [calculate_reai] on a store holding one frame, at reference 0. *)
Definition run_calculate (self : REAICalculator) (d : DataFrame) : result ref * DataFrame :=
  let '(r, h) := calculate_reai self 0%nat {[ 0%nat := d ]} in (r, deref h 0%nat).

(** Three counties: the first leads on transportation and trails on the
    labor market, the second the reverse, the third leads on both and on
    licensing. *)
Definition mixed_counties : DataFrame :=
  list_to_map
    [("county"%string, ObjCol ["Wake"; "Durham"; "Orange"]%string);
     ("pct_no_vehicle"%string, FloatCol [0; 100; 0]);
     ("avg_commute_time"%string, FloatCol [10; 20; 10]);
     ("pct_broadband"%string, FloatCol [100; 0; 100]);
     ("unemployment_rate"%string, FloatCol [10; 0; 0]);
     ("employment_growth"%string, FloatCol [0; 1; 1]);
     ("poverty_rate"%string, FloatCol [10; 0; 0]);
     ("licensing_burden_index"%string, FloatCol [1; 1; 0]);
     ("ban_the_box_score"%string, IntCol [75; 75; 75]%Z);
     ("fair_chance_score"%string, FloatCol [60; 60; 60])].

(** Weights that sum to exactly 1.0 with one of them negative. *)
Definition skewed_weights : dict :=
  [("transportation"%string, 2); ("labor_market"%string, -1);
   ("licensing"%string, 0); ("policy"%string, 0)].

Definition skewed : REAICalculator :=
  {| default_weights := default_weights the_default; weights := skewed_weights |}.


(** The store after the default engine scored [mixed_counties]. *)
Definition mixed_store : store := {[ 0%nat := mixed_counties ]}.
Definition mixed_scored : store := (calculate_reai the_default 0%nat mixed_store).2.

Definition valid_weights (w : dict) : Prop := isclose (py_sum (values w)) 1.0 = true.


(** The columns one scenario adds to [results]. *)
Definition scenario_result (results : DataFrame) (scenario_name : string)
    (scenario_reai : list Q) : DataFrame :=
  <[scenario_name +:+ "_rank" := IntCol (astype_int (rank_desc_min scenario_reai))]>
    (<[scenario_name +:+ "_REAI" := FloatCol scenario_reai]> results).

(** A weight set over the four components. *)
Definition over_components (w : dict) : Prop :=
  Forall (fun k => is_Some (dict_get w k))
         ["transportation"; "labor_market"; "licensing"; "policy"]%string.

(** A frame carrying what [sensitivity_analysis] reads: the county names,
    the base composite and rank, and four numeric score columns. *)
Definition scored (df : DataFrame) : Prop :=
  is_Some (df !! "county") /\ is_Some (df !! "REAI") /\ is_Some (df !! "REAI_rank")
  /\ Forall (fun name => exists c l, df !! name = Some c /\ to_float name c = OK l)
       ["transportation_score"; "labor_market_score"; "licensing_score";
        "policy_score"]%string.

(** One valid scenario followed by one whose weights sum to 0.95. *)
Definition two_scenarios : scenarios :=
  [("labor_focused"%string, accepted_weights); ("policy_light"%string, rejected_weights)].


Definition score_rows : list string :=
  ["REAI"; "transportation_score"; "labor_market_score"; "licensing_score";
   "policy_score"]%string.






(** ** Vocabulary of the further properties *)

(** The numbers of a numeric column of the frame (empty when the column is
    absent or holds strings). *)
Definition num (df : DataFrame) (name : string) : list Q :=
  match df !! name with
  | Some c =>
      match to_float name c with
      | OK v => v
      | Error _ => []
      end
  | None => []
  end.

(** What reading a column for arithmetic raises, if anything. *)
Definition column_problem (df : DataFrame) (name : string) : option exn :=
  match df !! name with
  | Some c =>
      match to_float name c with
      | OK _ => None
      | Error e => Some e
      end
  | None => Some (KeyError name)
  end.

(** The problem of the first column, in the given order, that has one. *)
Fixpoint first_problem (df : DataFrame) (names : list string) : option exn :=
  match names with
  | [] => None
  | name :: rest =>
      match column_problem df name with
      | Some e => Some e
      | None => first_problem df rest
      end
  end.


Definition transportation_inputs : list string :=
  ["pct_no_vehicle"; "avg_commute_time"; "pct_broadband"]%string.
Definition labor_market_inputs : list string :=
  ["unemployment_rate"; "employment_growth"; "poverty_rate"]%string.
Definition licensing_inputs : list string := ["licensing_burden_index"]%string.
Definition policy_inputs : list string :=
  ["ban_the_box_score"; "fair_chance_score"]%string.



(** The four component weights, read in the order [calculate_reai] reads
    them. *)
Definition component_weights (w : dict) : result (Q * Q * Q * Q) :=
  wt ← getitem w "transportation";
  wl ← getitem w "labor_market";
  wli ← getitem w "licensing";
  wp ← getitem w "policy";
  OK (wt, wl, wli, wp).

(** [mixed_counties] without its poverty column. *)
Definition no_poverty_store : store := {[ 0%nat := delete "poverty_rate" mixed_counties ]}.




(** The composites the default engine gives [mixed_counties]. *)
Definition mixed_reai : list Q := num (deref mixed_scored 0%nat) "REAI".

(** A column that is present and holds numbers. *)
Definition numeric (df : DataFrame) (name : string) : Prop :=
  exists c l, df !! name = Some c /\ to_float name c = OK l.

Definition component_score_columns : list string :=
  ["transportation_score"; "labor_market_score"; "licensing_score";
   "policy_score"]%string.

(** The composite a scenario's weights give the frame's score columns. *)
Definition scenario_composite (df : DataFrame) (wt wl wli wp : Q) : list Q :=
  composite (num df "transportation_score") (num df "labor_market_score")
            (num df "licensing_score") (num df "policy_score") wt wl wli wp.


(** The three scenarios of the analysis script. *)
Definition script_scenarios : scenarios :=
  [("labor_focused"%string,
    [("transportation"%string, 0.20); ("labor_market"%string, 0.50);
     ("licensing"%string, 0.15); ("policy"%string, 0.15)]);
   ("transport_focused"%string,
    [("transportation"%string, 0.50); ("labor_market"%string, 0.25);
     ("licensing"%string, 0.15); ("policy"%string, 0.10)]);
   ("policy_focused"%string,
    [("transportation"%string, 0.25); ("labor_market"%string, 0.25);
     ("licensing"%string, 0.20); ("policy"%string, 0.30)])].

(** A weight mapping with a fifth entry; it sums to 1.0 and names the four
    components. *)
Definition five_weights : dict :=
  [("transportation"%string, 0.30); ("labor_market"%string, 0.35);
   ("licensing"%string, 0.20); ("policy"%string, 0.15); ("housing"%string, 0)].

Definition five_keys : REAICalculator :=
  {| default_weights := default_weights the_default; weights := five_weights |}.

(** What pandas reports when a column of [given] values is assigned to a
    frame of [rows] rows. *)
Definition length_mismatch (given rows : nat) : exn :=
  ValueError [Lit "Length of values ("; Int given;
              Lit ") does not match length of index ("; Int rows; Lit ")"].

(** * Properties *)

(** ** Minimum and maximum of a series *)

Lemma fold_min_le_acc (t : list Q) (x : Q) : fold_left Qmin t x <= x.
Proof.
  revert x. induction t as [|y t IH]; intros x; simpl.
  - apply Qle_refl.
  - eapply Qle_trans; [apply IH | apply Q.le_min_l].
Qed.

Lemma fold_min_le_elem (t : list Q) (x : Q) :
  Forall (fun v => fold_left Qmin t x <= v) t.
Proof.
  revert x. induction t as [|y t IH]; intros x; simpl; constructor.
  - eapply Qle_trans; [apply fold_min_le_acc | apply Q.le_min_r].
  - apply IH.
Qed.

Lemma fold_max_ge_acc (t : list Q) (x : Q) : x <= fold_left Qmax t x.
Proof.
  revert x. induction t as [|y t IH]; intros x; simpl.
  - apply Qle_refl.
  - eapply Qle_trans; [apply Q.le_max_l | apply IH].
Qed.

Lemma fold_max_ge_elem (t : list Q) (x : Q) :
  Forall (fun v => v <= fold_left Qmax t x) t.
Proof.
  revert x. induction t as [|y t IH]; intros x; simpl; constructor.
  - eapply Qle_trans; [apply Q.le_max_r | apply fold_max_ge_acc].
  - apply IH.
Qed.

Lemma series_min_lower (s : list Q) (lo : Q) :
  series_min s = Some lo -> Forall (fun v => lo <= v) s.
Proof.
  destruct s as [|x t]; simpl; intros H; inversion H; subst; constructor.
  - apply fold_min_le_acc.
  - apply fold_min_le_elem.
Qed.

Lemma series_max_upper (s : list Q) (hi : Q) :
  series_max s = Some hi -> Forall (fun v => v <= hi) s.
Proof.
  destruct s as [|x t]; simpl; intros H; inversion H; subst; constructor.
  - apply fold_max_ge_acc.
  - apply fold_max_ge_elem.
Qed.

(** On a series whose entries all equal [x], both folds stay at [x]. *)
Lemma fold_min_const (t : list Q) (x : Q) :
  Forall (fun v => v == x) t -> fold_left Qmin t x == x.
Proof.
  revert x. induction t as [|y t IH]; intros x Hall; simpl; [reflexivity|].
  inversion Hall as [|? ? Hy Ht]; subst.
  assert (Hm : Qmin x y == x).
  { destruct (Q.min_spec x y) as [[_ E]|[_ E]]; rewrite E; [reflexivity | exact Hy]. }
  rewrite (IH (Qmin x y)); [exact Hm|].
  eapply Forall_impl; [exact Ht|]. simpl. intros v Hv. rewrite Hv, Hm. reflexivity.
Qed.

Lemma fold_max_const (t : list Q) (x : Q) :
  Forall (fun v => v == x) t -> fold_left Qmax t x == x.
Proof.
  revert x. induction t as [|y t IH]; intros x Hall; simpl; [reflexivity|].
  inversion Hall as [|? ? Hy Ht]; subst.
  assert (Hm : Qmax x y == x).
  { destruct (Q.max_spec x y) as [[_ E]|[_ E]]; rewrite E; [exact Hy | reflexivity]. }
  rewrite (IH (Qmax x y)); [exact Hm|].
  eapply Forall_impl; [exact Ht|]. simpl. intros v Hv. rewrite Hv, Hm. reflexivity.
Qed.

Lemma min_eq_max_constant (s : list Q) (lo hi : Q) :
  series_min s = Some lo -> series_max s = Some hi -> hi == lo -> constant s.
Proof.
  intros Hlo Hhi E x y Hx Hy.
  pose proof (series_min_lower _ _ Hlo) as L.
  pose proof (series_max_upper _ _ Hhi) as U.
  rewrite Forall_forall in L, U.
  pose proof (L x Hx). pose proof (L y Hy). pose proof (U x Hx). pose proof (U y Hy).
  lra.
Qed.

Lemma constant_min_eq_max (x : Q) (t : list Q) :
  constant (x :: t) ->
  Qeq_bool (fold_left Qmax t x) (fold_left Qmin t x) = true.
Proof.
  intros Hc. apply Qeq_bool_iff.
  assert (Hall : Forall (fun v => v == x) t).
  { apply Forall_forall. intros v Hv. apply Hc; [right; exact Hv | left]. }
  rewrite (fold_min_const _ _ Hall), (fold_max_const _ _ Hall). reflexivity.
Qed.

(** ** The normalizer *)


Lemma normalize_score_length (s : list Q) (reverse : bool) :
  length (normalize_score s reverse) = length s.
Proof.
  unfold normalize_score.
  destruct s as [|x t]; [reflexivity|].
  cbn [series_min series_max].
  destruct (Qeq_bool _ _).
  - apply repeat_length.
  - destruct reverse; unfold series_rsub, series_mul, series_div, series_sub;
      rewrite ?length_map; reflexivity.
Qed.


(** C5. On a series whose entries are all equal, [normalize_score] returns
    50.0 for every entry, whether [reverse] is set or not: the constant
    branch returns before any division takes place. *)
Theorem normalize_score_constant (s : list Q) (reverse : bool) :
  constant s ->
  normalize_score s reverse = repeat 50.0 (length s)
  /\ Forall (fun v => v == 50) (normalize_score s reverse).
Proof.
  intros Hc.
  assert (E : normalize_score s reverse = repeat 50.0 (length s)).
  { unfold normalize_score. destruct s as [|x t]; [reflexivity|].
    cbn [series_min series_max]. rewrite (constant_min_eq_max _ _ Hc). reflexivity. }
  split; [exact E|]. rewrite E. apply Forall_forall.
  intros v Hv. apply list_elem_of_In, repeat_spec in Hv. subst. reflexivity.
Qed.

Lemma normalize_score_constant_witness :
  constant [7; 7; 7]
  /\ normalize_score [7; 7; 7] true = [50.0; 50.0; 50.0]
  /\ normalize_score [7; 7; 7] false = [50.0; 50.0; 50.0].
Proof.
  assert (Hc : constant [7; 7; 7]).
  { intros x y Hx Hy.
    repeat match goal with
           | H : _ ∈ _ :: _ |- _ => apply elem_of_cons in H; destruct H as [->|H]
           | H : _ ∈ [] |- _ => apply elem_of_nil in H; destruct H
           end; reflexivity. }
  split; [exact Hc|].
  split; [exact (proj1 (normalize_score_constant [7; 7; 7] true Hc))
         | exact (proj1 (normalize_score_constant [7; 7; 7] false Hc))].
Defined.

(** C6. On a series that is not constant, the reversed scores are, entry by
    entry, 100 minus the direct scores; the direct scores are the min-max
    scaling [(v - min) / (max - min) * 100], so the reversal reflects each
    score about 50. *)
Theorem normalize_score_reverse (s : list Q) :
  ~ constant s ->
  exists lo hi,
    series_min s = Some lo /\ series_max s = Some hi /\ ~ hi == lo
    /\ normalize_score s false = map (fun v => (v - lo) / (hi - lo) * 100) s
    /\ normalize_score s true = map (fun v => 100 - v) (normalize_score s false)
    /\ Forall2 (fun r d => r - 50 == 50 - d)
         (normalize_score s true) (normalize_score s false).
Proof.
  intros Hnc. unfold normalize_score.
  destruct s as [|x t].
  { exfalso. apply Hnc. intros a b Ha. apply elem_of_nil in Ha. destruct Ha. }
  cbn [series_min series_max].
  set (lo := fold_left Qmin t x). set (hi := fold_left Qmax t x).
  exists lo, hi.
  destruct (Qeq_bool hi lo) eqn:E.
  { exfalso. apply Hnc.
    apply (min_eq_max_constant (x :: t) lo hi); try reflexivity.
    apply Qeq_bool_iff. exact E. }
  apply Qeq_bool_neq in E.
  repeat split; try exact E.
  - unfold series_mul, series_div, series_sub. rewrite !map_map. reflexivity.
  - unfold series_rsub. apply Forall2_fmap_l, Forall_Forall2_diag, Forall_forall.
    intros v _. simpl. lra.
Qed.

Lemma normalize_score_reverse_witness :
  ~ constant [5; 10; 15]
  /\ normalize_score [5; 10; 15] true
     = map (fun v => 100 - v) (normalize_score [5; 10; 15] false).
Proof.
  assert (Hnc : ~ constant [5; 10; 15]).
  { intros Hc. specialize (Hc 5 10).
    assert (H5 : (5 : Q) ∈ [5; 10; 15]) by (left).
    assert (H10 : (10 : Q) ∈ [5; 10; 15]) by (right; left).
    specialize (Hc H5 H10). revert Hc. vm_compute. discriminate. }
  split; [exact Hnc|].
  destruct (normalize_score_reverse [5; 10; 15] Hnc) as (lo & hi & _ & _ & _ & _ & H & _).
  exact H.
Defined.

(** ** Construction and weight validation *)






(** C9. An empty weight mapping is falsy, so the constructor takes the
    default weights in its place and succeeds, although the empty mapping
    itself sums to 0 and would not pass the validation. *)
Theorem init_empty_mapping_uses_defaults :
  truthy [] = false
  /\ isclose (py_sum (values ([] : dict))) 1.0 = false
  /\ __init__ (Some []) = OK the_default
  /\ weights the_default =
       [("transportation"%string, 0.30); ("labor_market"%string, 0.35);
        ("licensing"%string, 0.20); ("policy"%string, 0.15)].
Proof. repeat split. Qed.

(** ** Ranking *)

Section InsertionSort.
Variable le : Q -> Q -> bool.

Lemma Forall_insert_by (P : Q -> Prop) (x : Q) (l : list Q) :
  Forall P (insert_by le x l) <-> P x /\ Forall P l.
Proof.
  induction l as [|y t IH]; simpl.
  - rewrite Forall_singleton. intuition.
  - destruct (le x y).
    + rewrite !Forall_cons. tauto.
    + rewrite !Forall_cons, IH. tauto.
Qed.

Lemma Exists_insert_by (P : Q -> Prop) (x : Q) (l : list Q) :
  Exists P (insert_by le x l) <-> P x \/ Exists P l.
Proof.
  induction l as [|y t IH]; simpl.
  - rewrite !Exists_cons, !Exists_nil. tauto.
  - destruct (le x y).
    + rewrite !Exists_cons. tauto.
    + rewrite !Exists_cons, IH. tauto.
Qed.

Lemma Exists_sort_by (P : Q -> Prop) (l : list Q) :
  Exists P (sort_by le l) <-> Exists P l.
Proof.
  induction l as [|y t IH]; simpl; [reflexivity|].
  rewrite Exists_insert_by, Exists_cons, IH. reflexivity.
Qed.

Lemma count_above_insert_by (x y : Q) (l : list Q) :
  count_above x (insert_by le y l) = count_above x (y :: l).
Proof.
  induction l as [|z t IH]; simpl; [reflexivity|].
  destruct (le y z); simpl; [reflexivity|].
  rewrite IH. simpl. lia.
Qed.

Lemma count_above_sort_by (x : Q) (l : list Q) :
  count_above x (sort_by le l) = count_above x l.
Proof.
  induction l as [|y t IH]; simpl; [reflexivity|].
  rewrite count_above_insert_by. simpl. rewrite IH. reflexivity.
Qed.

Lemma length_insert_by (x : Q) (l : list Q) :
  length (insert_by le x l) = S (length l).
Proof.
  induction l as [|y t IH]; simpl; [reflexivity|].
  destruct (le x y); simpl; [reflexivity | rewrite IH; reflexivity].
Qed.

Lemma length_sort_by (l : list Q) : length (sort_by le l) = length l.
Proof.
  induction l as [|y t IH]; simpl; [reflexivity|].
  rewrite length_insert_by, IH. reflexivity.
Qed.
End InsertionSort.

Lemma insert_descending (x : Q) (l : list Q) :
  descending l -> descending (insert_by (fun a b => Qle_bool b a) x l).
Proof.
  unfold descending. induction l as [|y t IH]; intros Hs; simpl.
  - constructor; constructor.
  - apply StronglySorted_inv in Hs. destruct Hs as [Ht Hy].
    destruct (Qle_bool y x) eqn:E.
    + apply Qle_bool_iff in E. constructor.
      * constructor; assumption.
      * constructor; [exact E|].
        eapply Forall_impl; [exact Hy|]. simpl. intros; lra.
    + assert (x < y).
      { apply Qnot_le_lt. intros Hle. apply Qle_bool_iff in Hle. congruence. }
      constructor; [apply IH; exact Ht|].
      apply Forall_insert_by. split; [lra | exact Hy].
Qed.

Lemma sort_desc_descending (l : list Q) : descending (sort_desc l).
Proof.
  unfold sort_desc, sort_by. induction l as [|y t IH]; simpl.
  - constructor.
  - apply insert_descending. exact IH.
Qed.

Lemma count_above_zero (x : Q) (l : list Q) :
  Forall (fun v => v <= x) l -> count_above x l = 0%nat.
Proof.
  induction 1 as [|y t Hy _ IH]; simpl; [reflexivity|].
  apply Qle_bool_iff in Hy. rewrite Hy, IH. reflexivity.
Qed.

(** In a descending list the entries before the first occurrence of [x]
    are exactly the entries strictly above [x]. *)
Lemma descending_first_index (x : Q) (l : list Q) :
  descending l -> Exists (fun v => v == x) l ->
  first_index x l = count_above x l.
Proof.
  unfold descending. induction l as [|y t IH]; intros Hs Hx.
  - apply Exists_nil in Hx. destruct Hx.
  - apply StronglySorted_inv in Hs. destruct Hs as [Ht Hy]. simpl.
    destruct (Qeq_bool y x) eqn:E.
    + apply Qeq_bool_iff in E.
      assert (Hle : Qle_bool y x = true) by (apply Qle_bool_iff; lra).
      rewrite Hle, count_above_zero; [reflexivity|].
      eapply Forall_impl; [exact Hy|]. simpl. intros; lra.
    + apply Qeq_bool_neq in E.
      apply Exists_cons in Hx. destruct Hx as [Hx|Hx]; [contradiction|].
      assert (Hxy : x <= y).
      { rewrite Forall_forall in Hy. apply Exists_exists in Hx.
        destruct Hx as (v & Hv & Ev). specialize (Hy v Hv). lra. }
      assert (Hle : Qle_bool y x = false).
      { apply not_true_iff_false. intros H. apply Qle_bool_iff in H.
        apply E. apply Qle_antisym; assumption. }
      rewrite Hle, (IH Ht Hx). reflexivity.
Qed.

Lemma astype_int_inject_Z (z : Z) :
  Z.quot (Qnum (inject_Z z)) (Zpos (Qden (inject_Z z))) = z.
Proof. simpl. apply Z.quot_1_r. Qed.

(** The rank of an entry is one more than the number of entries strictly
    above it: standard competition ranking. *)
Lemma rank_desc_min_spec (s : list Q) :
  astype_int (rank_desc_min s) = map (fun v => Z.of_nat (S (count_above v s))) s.
Proof.
  unfold astype_int, rank_desc_min. rewrite map_map.
  apply map_ext_in. intros v Hv.
  rewrite astype_int_inject_Z. do 2 f_equal.
  rewrite descending_first_index.
  - apply count_above_sort_by.
  - apply sort_desc_descending.
  - apply Exists_sort_by, Exists_exists. exists v.
    split; [apply list_elem_of_In; exact Hv | reflexivity].
Qed.

Lemma count_above_mono (x y : Q) (l : list Q) :
  y <= x -> (count_above x l <= count_above y l)%nat.
Proof.
  intros Hle. induction l as [|z t IH]; simpl; [lia|].
  destruct (Qle_bool z x) eqn:Ex, (Qle_bool z y) eqn:Ey; try lia.
  apply Qle_bool_iff in Ey.
  assert (Qle_bool z x = true) by (apply Qle_bool_iff; lra). congruence.
Qed.

Lemma count_above_Qeq (x y : Q) (l : list Q) :
  x == y -> count_above x l = count_above y l.
Proof.
  intros E. apply Nat.le_antisymm; apply count_above_mono; lra.
Qed.

(** A strictly lower entry has strictly more entries above it, as soon as
    the higher one occurs in the list. *)
Lemma count_above_strict (x y : Q) (l : list Q) :
  y < x -> x ∈ l -> (count_above x l < count_above y l)%nat.
Proof.
  intros Hlt Hin. induction l as [|z t IH]; [apply elem_of_nil in Hin; destruct Hin|].
  apply elem_of_cons in Hin. simpl.
  assert (Hm : (count_above x t <= count_above y t)%nat)
    by (apply count_above_mono; lra).
  destruct Hin as [->|Hin].
  - assert (Hx : Qle_bool z z = true) by (apply Qle_bool_iff; lra).
    assert (Hy : Qle_bool z y = false).
    { apply not_true_iff_false. intros H. apply Qle_bool_iff in H. lra. }
    rewrite Hx, Hy. lia.
  - specialize (IH Hin).
    destruct (Qle_bool z x) eqn:Ex, (Qle_bool z y) eqn:Ey; try lia.
    apply Qle_bool_iff in Ey.
    assert (Qle_bool z x = true) by (apply Qle_bool_iff; lra). congruence.
Qed.

Example rank_competition_example :
  astype_int (rank_desc_min [90; 90; 80]) = [1; 1; 3]%Z.
Proof. reflexivity. Qed.

(** ** What [calculate_reai] leaves in the store *)

Lemma M_bind_OK {A B : Type} (m : M A) (k : A -> M B) (h h' : store) (b : B) :
  (m ≫= k) h = (OK b, h') ->
  exists a h1, m h = (OK a, h1) /\ k a h1 = (OK b, h').
Proof.
  unfold mbind, M_mbind, M_bind. destruct (m h) as [[a|e] h1]; intros H.
  - exists a, h1. split; [reflexivity | exact H].
  - discriminate.
Qed.

Lemma reading_OK {A : Type} (df : ref) (f : DataFrame -> result A)
    (h h' : store) (a : A) :
  reading df f h = (OK a, h') -> f (deref h df) = OK a /\ h' = h.
Proof. unfold reading. intros H. injection H as H1 H2. auto. Qed.

Lemma df_setitem_OK (df : ref) (name : string) (c : column) (h h' : store) (u : unit) :
  df_setitem df name c h = (OK u, h') ->
  h' = <[df := <[name := c]> (deref h df)]> h.
Proof. unfold df_setitem. intros H. injection H as H. auto. Qed.

Lemma deref_insert (h : store) (df : ref) (d : DataFrame) :
  deref (<[df := d]> h) df = d.
Proof. unfold deref. rewrite lookup_insert_eq. reflexivity. Qed.

Lemma deref_insert_ne (h : store) (df r : ref) (d : DataFrame) :
  df <> r -> deref (<[df := d]> h) r = deref h r.
Proof. intros Hne. unfold deref. rewrite lookup_insert_ne by exact Hne. reflexivity. Qed.

Ltac step_M H :=
  let a := fresh "a" in
  let h1 := fresh "h" in
  let H1 := fresh "Hstep" in
  apply M_bind_OK in H as (a & h1 & H1 & H);
  first
    [ apply reading_OK in H1 as [H1 ->]
    | apply df_setitem_OK in H1; subst h1; rewrite ?insert_insert_eq in H ];
  rewrite ?deref_insert in *.

Ltac step_result H :=
  let a := fresh "v" in
  let H1 := fresh "Hget" in
  apply bind_OK in H as (a & H1 & H).

Lemma calculate_reai_OK (self : REAICalculator) (df r : ref) (h h' : store) :
  calculate_reai self df h = (OK r, h') ->
  exists ts ls lis ps wt wl wli wp,
    let d := deref h df in
    let d1 := <["transportation_score" := FloatCol ts]> d in
    let d2 := <["labor_market_score" := FloatCol ls]> d1 in
    let d3 := <["licensing_score" := FloatCol lis]> d2 in
    r = df
    /\ h' = <[df := attach d ts ls lis ps (composite ts ls lis ps wt wl wli wp)]> h
    /\ calculate_transportation_score self d = OK ts
    /\ calculate_labor_market_score self d1 = OK ls
    /\ calculate_licensing_score self d2 = OK lis
    /\ calculate_policy_score self d3 = OK ps
    /\ getitem (weights self) "transportation" = OK wt
    /\ getitem (weights self) "labor_market" = OK wl
    /\ getitem (weights self) "licensing" = OK wli
    /\ getitem (weights self) "policy" = OK wp.
Proof.
  intros H. unfold calculate_reai in H.
  do 8 step_M H.
  step_M H. rename Hstep3 into Hreai.
  step_M H. step_M H. rename Hstep3 into Hrank.
  step_M H.
  injection H as <- <-.
  unfold df_getitem in Hreai, Hrank.
  rewrite lookup_insert_eq in Hrank. simpl in Hrank. injection Hrank as <-.
  repeat (rewrite ?lookup_insert_eq, ?lookup_insert_ne in Hreai by done).
  simpl in Hreai.
  repeat (step_result Hreai; simpl in Hreai).
  injection Hreai as <-.
  exists a, a1, a3, a5, v, v0, v1, v2. cbv zeta. repeat split; assumption.
Qed.

(** ** Ranges of the scores *)

Lemma in_range_between (l : list Q) : Forall in_range l <-> Forall (between 0 100) l.
Proof. reflexivity. Qed.



Lemma between_weaken (a : list Q) (lo hi lo' hi' : Q) :
  lo' <= lo -> hi <= hi' -> Forall (between lo hi) a -> Forall (between lo' hi') a.
Proof.
  intros H1 H2 Ha. eapply Forall_impl; [exact Ha|].
  unfold between. simpl. intros; lra.
Qed.






(** Lookups in the frame [calculate_reai] leaves behind. *)
Lemma attach_lookup (d : DataFrame) (ts ls lis ps reai : list Q) :
  attach d ts ls lis ps reai !! "transportation_score" = Some (FloatCol ts)
  /\ attach d ts ls lis ps reai !! "labor_market_score" = Some (FloatCol ls)
  /\ attach d ts ls lis ps reai !! "licensing_score" = Some (FloatCol lis)
  /\ attach d ts ls lis ps reai !! "policy_score" = Some (FloatCol ps)
  /\ attach d ts ls lis ps reai !! "REAI" = Some (FloatCol reai)
  /\ attach d ts ls lis ps reai !! "REAI_rank"
     = Some (IntCol (astype_int (rank_desc_min reai))).
Proof.
  unfold attach.
  repeat split; repeat (rewrite ?lookup_insert_eq, ?lookup_insert_ne by done); reflexivity.
Qed.

Lemma attach_lookup_other (d : DataFrame) (ts ls lis ps reai : list Q) (name : string) :
  name ∉ derived_columns ->
  attach d ts ls lis ps reai !! name = d !! name.
Proof.
  intros Hn. unfold attach, derived_columns in *.
  repeat (rewrite lookup_insert_ne; [|intros <-; apply Hn; set_solver]).
  reflexivity.
Qed.

(** ** Tables used in the examples *)

(** A successful run, written as the equation the theorems below take. *)
Lemma run_OK (self : REAICalculator) (df : ref) (h : store) :
  (calculate_reai self df h).1 = OK df ->
  calculate_reai self df h = (OK df, (calculate_reai self df h).2).
Proof. destruct (calculate_reai self df h) as [r h']. simpl. intros ->. reflexivity. Qed.

Example mixed_counties_scores :
  (run_calculate the_default mixed_counties).1 = OK 0%nat
  /\ qred_col <$> (run_calculate the_default mixed_counties).2 !! "transportation_score"
     = Some (FloatCol [100; 0; 100])
  /\ qred_col <$> (run_calculate the_default mixed_counties).2 !! "labor_market_score"
     = Some (FloatCol [0; 100; 100])
  /\ qred_col <$> (run_calculate the_default mixed_counties).2 !! "licensing_score"
     = Some (FloatCol [0; 0; 100])
  /\ qred_col <$> (run_calculate the_default mixed_counties).2 !! "policy_score"
     = Some (FloatCol [50; 50; 50])
  /\ qred_col <$> (run_calculate the_default mixed_counties).2 !! "REAI"
     = Some (FloatCol [75 # 2; 85 # 2; 185 # 2])
  /\ (run_calculate the_default mixed_counties).2 !! "REAI_rank"
     = Some (IntCol [3; 2; 1]%Z).
Proof. vm_compute. repeat split. Qed.

(** ** Ranks follow the composite *)

(** C2. After [calculate_reai], the rank column is the competition ranking
    of the composite column: a region's rank is one more than the number of
    regions with a strictly higher composite.  Hence a higher composite
    never has a worse rank (it has a strictly better one), equal composites
    share their rank, and the ranks after a tie group skip the group's size:
    composites 90, 90, 80 rank 1, 1, 3. *)
Theorem rank_consistent_with_composite
    (self : REAICalculator) (df r : ref) (h h' : store) :
  calculate_reai self df h = (OK r, h') ->
  exists reai ranks,
    deref h' r !! "REAI" = Some (FloatCol reai)
    /\ deref h' r !! "REAI_rank" = Some (IntCol ranks)
    /\ length ranks = length reai
    /\ (forall i a ra, reai !! i = Some a -> ranks !! i = Some ra ->
         ra = Z.of_nat (1 + count_above a reai))
    /\ (forall i j a b ra rb,
         reai !! i = Some a -> reai !! j = Some b ->
         ranks !! i = Some ra -> ranks !! j = Some rb ->
         (b < a -> (ra <= rb)%Z /\ (ra < rb)%Z) /\ (a == b -> ra = rb))
    /\ astype_int (rank_desc_min [90; 90; 80]) = [1; 1; 3]%Z.
Proof.
  intros H. apply calculate_reai_OK in H.
  destruct H as (ts & ls & lis & ps & wt & wl & wli & wp & H). cbv zeta in H.
  destruct H as (-> & -> & _).
  set (reai := composite ts ls lis ps wt wl wli wp).
  rewrite deref_insert.
  destruct (attach_lookup (deref h df) ts ls lis ps reai)
    as (_ & _ & _ & _ & Hreai & Hrank).
  exists reai, (astype_int (rank_desc_min reai)).
  split; [exact Hreai|]. split; [exact Hrank|].
  rewrite rank_desc_min_spec.
  assert (Hspec : forall i a ra, reai !! i = Some a ->
            map (fun v => Z.of_nat (S (count_above v reai))) reai !! i = Some ra ->
            ra = Z.of_nat (1 + count_above a reai)).
  { intros i a ra Ha Hra. change (map ?f ?l) with (f <$> l) in Hra.
    rewrite list_lookup_fmap, Ha in Hra. simpl in Hra. injection Hra as <-. reflexivity. }
  split; [apply length_map|]. split; [exact Hspec|]. split; [|reflexivity].
  intros i j a b ra rb Ha Hb Hra Hrb.
  rewrite (Hspec i a ra Ha Hra), (Hspec j b rb Hb Hrb).
  split.
  - intros Hlt.
    assert (count_above a reai < count_above b reai)%nat.
    { apply count_above_strict; [exact Hlt|]. apply list_elem_of_lookup. eauto. }
    lia.
  - intros Heq. rewrite (count_above_Qeq a b reai Heq). reflexivity.
Qed.

Lemma mixed_run : calculate_reai the_default 0%nat mixed_store = (OK 0%nat, mixed_scored).
Proof. apply run_OK. vm_compute. reflexivity. Qed.

Lemma rank_consistent_with_composite_witness :
  calculate_reai the_default 0%nat mixed_store = (OK 0%nat, mixed_scored)
  /\ exists reai ranks,
       deref mixed_scored 0%nat !! "REAI" = Some (FloatCol reai)
       /\ deref mixed_scored 0%nat !! "REAI_rank" = Some (IntCol ranks)
       /\ length ranks = length reai.
Proof.
  split; [exact mixed_run|].
  destruct (rank_consistent_with_composite _ _ _ _ _ mixed_run)
    as (reai & ranks & H1 & H2 & H3 & _).
  exists reai, ranks. auto.
Defined.

(** ** Score ranges *)




(** ** The frame is mutated in place *)

(** A literal name is not among a literal list of other names. *)
Ltac not_among :=
  let Hin := fresh "Hin" in
  intros Hin;
  repeat (apply elem_of_cons in Hin; destruct Hin as [Hin|Hin]; [discriminate|]);
  apply elem_of_nil in Hin; exact Hin.

(** C10 (as the code has it). [calculate_reai] returns the reference it was
    given; the object behind it now carries the six derived columns, every
    other object of the store is untouched, and every column of the frame
    whose name is not one of the six derived names keeps its values. *)
Theorem calculate_reai_in_place (self : REAICalculator) (df r : ref) (h h' : store) :
  calculate_reai self df h = (OK r, h') ->
  r = df
  /\ (forall other, other <> df -> h' !! other = h !! other)
  /\ (forall name, name ∈ derived_columns -> is_Some (deref h' df !! name))
  /\ (forall name, name ∉ derived_columns ->
      deref h' df !! name = deref h df !! name).
Proof.
  intros H. apply calculate_reai_OK in H.
  destruct H as (ts & ls & lis & ps & wt & wl & wli & wp & H). cbv zeta in H.
  destruct H as (-> & -> & _).
  set (reai := composite ts ls lis ps wt wl wli wp).
  rewrite deref_insert.
  split; [reflexivity|]. split; [|split].
  - intros other Hne. apply lookup_insert_ne. congruence.
  - intros name Hin.
    destruct (attach_lookup (deref h df) ts ls lis ps reai)
      as (L1 & L2 & L3 & L4 & L5 & L6).
    unfold derived_columns in Hin.
    repeat (apply elem_of_cons in Hin; destruct Hin as [->|Hin]; [eauto|]).
    apply elem_of_nil in Hin. destruct Hin.
  - intros name Hn. apply attach_lookup_other. exact Hn.
Qed.

Lemma calculate_reai_in_place_witness :
  calculate_reai the_default 0%nat mixed_store = (OK 0%nat, mixed_scored)
  /\ ("pct_broadband" ∉ derived_columns)
  /\ deref mixed_scored 0%nat !! "pct_broadband"
     = deref mixed_store 0%nat !! "pct_broadband".
Proof.
  assert (Hn : "pct_broadband" ∉ derived_columns).
  { unfold derived_columns. intros Hin.
    repeat (apply elem_of_cons in Hin; destruct Hin as [Hin|Hin]; [discriminate|]).
    apply elem_of_nil in Hin. exact Hin. }
  split; [exact mixed_run|]. split; [exact Hn|].
  exact (proj2 (proj2 (proj2 (calculate_reai_in_place _ _ _ _ _ mixed_run))) _ Hn).
Defined.

(** C10 (as stated) fails for a column that carries a derived name.  The
    frame scored by the default engine has a [REAI] column; scoring the same
    object with the [skewed] engine replaces its values. *)
Lemma calculate_reai_overwrites_counterexample :
  (calculate_reai skewed 0%nat mixed_scored).1 = OK 0%nat
  /\ qred_col <$> deref mixed_scored 0%nat !! "REAI"
     = Some (FloatCol [75 # 2; 85 # 2; 185 # 2])
  /\ qred_col <$> (deref (calculate_reai skewed 0%nat mixed_scored).2 0%nat !! "REAI")
     = Some (FloatCol [200; -100; 100])
  /\ deref (calculate_reai skewed 0%nat mixed_scored).2 0%nat !! "REAI"
     <> deref mixed_scored 0%nat !! "REAI".
Proof.
  assert (H1 : qred_col <$> deref mixed_scored 0%nat !! "REAI"
               = Some (FloatCol [75 # 2; 85 # 2; 185 # 2]))
    by (vm_compute; reflexivity).
  assert (H2 : qred_col <$> (deref (calculate_reai skewed 0%nat mixed_scored).2 0%nat
                               !! "REAI")
               = Some (FloatCol [200; -100; 100]))
    by (vm_compute; reflexivity).
  split; [vm_compute; reflexivity|]. split; [exact H1|]. split; [exact H2|].
  intros E.
  pose proof (eq_trans (eq_sym H2) (eq_trans (f_equal (fmap qred_col) E) H1)) as X.
  clear -X. discriminate X.
Qed.

(** ** Column names of the scenarios *)

Lemma string_length_app (a b : string) :
  String.length (a +:+ b) = (String.length a + String.length b)%nat.
Proof. induction a as [|c a IH]; simpl; [reflexivity | rewrite IH; reflexivity]. Qed.

(** Two names built with suffixes of one length agree only when both the
    stems and the suffixes agree. *)
Lemma app_suffix_inv (a b s t : string) :
  String.length s = String.length t ->
  a +:+ s = b +:+ t -> a = b /\ s = t.
Proof.
  intros Hlen. revert b. induction a as [|c a IH]; intros [|c' b] E; simpl in E.
  - auto.
  - exfalso. apply (f_equal String.length) in E.
    rewrite !string_length_app in E. simpl in E. lia.
  - exfalso. apply (f_equal String.length) in E.
    rewrite !string_length_app in E. simpl in E. lia.
  - simpl in E. injection E as -> E. destruct (IH _ E) as [-> ->]. auto.
Qed.

Lemma column_name_inj (a b : string) (s : string) : a +:+ s = b +:+ s -> a = b.
Proof. intros E. apply (app_suffix_inv a b s s) in E; [tauto | reflexivity]. Qed.

Lemma REAI_name_ne_rank_name (a b : string) : a +:+ "_REAI" <> b +:+ "_rank".
Proof.
  intros E. apply app_suffix_inv in E; [|reflexivity]. destruct E as [_ E]. discriminate.
Qed.

(** ** Dictionaries with the same items *)









(** ** Sensitivity analysis *)


Lemma scenario_step_OK (df results results' : DataFrame) (name : string) (w : dict) :
  scenario_step df results (name, w) = OK results' ->
  valid_weights w
  /\ exists ct cl cli cp t l li p wt wl wli wp,
       df !! "transportation_score" = Some ct /\ to_float "transportation_score" ct = OK t
       /\ df !! "labor_market_score" = Some cl /\ to_float "labor_market_score" cl = OK l
       /\ df !! "licensing_score" = Some cli /\ to_float "licensing_score" cli = OK li
       /\ df !! "policy_score" = Some cp /\ to_float "policy_score" cp = OK p
       /\ getitem w "transportation" = OK wt /\ getitem w "labor_market" = OK wl
       /\ getitem w "licensing" = OK wli /\ getitem w "policy" = OK wp
       /\ results' = scenario_result results name (composite t l li p wt wl wli wp).
Proof.
  unfold scenario_step, valid_weights. intros H.
  destruct (isclose _ 1.0); [|discriminate]. split; [reflexivity|].
  simpl in H. repeat step_result H. injection H as <-.
  unfold df_getitem in *.
  destruct (df !! "transportation_score") as [ct|]; [|discriminate].
  destruct (df !! "labor_market_score") as [cl|]; [|discriminate].
  destruct (df !! "licensing_score") as [cli|]; [|discriminate].
  destruct (df !! "policy_score") as [cp|]; [|discriminate].
  repeat match goal with H : OK _ = OK _ |- _ => injection H as <- end.
  exists ct, cl, cli, cp, v1, v4, v7, v10, v0, v3, v6, v9.
  repeat split; assumption.
Qed.

Lemma scenario_result_other (results : DataFrame) (name key : string) (s : list Q) :
  key <> name +:+ "_REAI" -> key <> name +:+ "_rank" ->
  scenario_result results name s !! key = results !! key.
Proof.
  intros H1 H2. unfold scenario_result.
  rewrite !lookup_insert_ne by congruence. reflexivity.
Qed.

(** Scenarios write only their own two columns. *)
Lemma scenario_loop_other (df : DataFrame) (scs : scenarios) (key : string) :
  (forall name w, (name, w) ∈ scs -> key <> name +:+ "_REAI" /\ key <> name +:+ "_rank") ->
  forall results results',
    scenario_loop df scs results = OK results' -> results' !! key = results !! key.
Proof.
  induction scs as [|[name w] scs IH]; intros Hkey results results' H;
    cbn [scenario_loop] in H.
  - injection H as <-. reflexivity.
  - apply bind_OK in H as (r1 & Hstep & H).
    apply scenario_step_OK in Hstep as (_ & Hstep).
    destruct Hstep as (ct & cl & cli & cp & t & l & li & p & wt & wl & wli & wp & Hs).
    destruct Hs as (_ & _ & _ & _ & _ & _ & _ & _ & _ & _ & _ & _ & ->).
    rewrite (IH (fun n w' Hin => Hkey n w' (list_elem_of_further _ _ _ Hin)) _ _ H).
    destruct (Hkey name w) as [K1 K2]; [left|].
    apply scenario_result_other; assumption.
Qed.


Lemma scenario_step_runs (df results : DataFrame) (name : string) (w : dict) :
  scored df -> valid_weights w -> over_components w ->
  exists results', scenario_step df results (name, w) = OK results'.
Proof.
  unfold scored, over_components, valid_weights, scenario_step.
  intros (_ & _ & _ & Hcols) Hv Hw. rewrite Hv. simpl.
  repeat match goal with
         | H : Forall _ (_ :: _) |- _ => apply Forall_cons in H; destruct H as [? H]
         end.
  repeat match goal with
         | H : exists c l, _ |- _ => destruct H as (? & ? & ? & ?)
         | H : is_Some _ |- _ => destruct H as [? ?]
         end.
  unfold df_getitem, getitem.
  repeat match goal with
         | H : _ !! _ = Some _ |- _ => rewrite H; clear H; simpl
         | H : dict_get _ _ = Some _ |- _ => rewrite H; clear H; simpl
         | H : to_float _ _ = OK _ |- _ => rewrite H; clear H; simpl
         end.
  eauto.
Qed.

Lemma scenario_loop_runs (df : DataFrame) (scs : scenarios) :
  scored df -> Forall (fun sc => valid_weights sc.2 /\ over_components sc.2) scs ->
  forall results, exists results', scenario_loop df scs results = OK results'.
Proof.
  intros Hdf. induction 1 as [|[name w] scs [Hv Hw] _ IH]; intros results;
    cbn [scenario_loop].
  - eauto.
  - destruct (scenario_step_runs df results name w Hdf Hv Hw) as [r1 ->]. simpl.
    apply IH.
Qed.


Lemma sensitivity_analysis_scored (self : REAICalculator) (df : DataFrame) (scs : scenarios) :
  scored df ->
  exists results, sensitivity_analysis self df scs = scenario_loop df scs results.
Proof.
  unfold scored, sensitivity_analysis, df_getitem.
  intros ([c1 ->] & [c2 ->] & [c3 ->] & _). simpl. eauto.
Qed.





Example sensitivity_analysis_names_scenario :
  sensitivity_analysis the_default (deref mixed_scored 0%nat) two_scenarios
  = Error (ValueError [Lit "Weights for "; Str "policy_light"; Lit " must sum to 1.0"]).
Proof. vm_compute. reflexivity. Qed.

(** ** A scenario with the base weights *)

Lemma calculate_reai_scored (self : REAICalculator) (df r : ref) (h h' : store) :
  calculate_reai self df h = (OK r, h') ->
  is_Some (deref h' r !! "county") ->
  scored (deref h' r).
Proof.
  intros H Hc. apply calculate_reai_OK in H.
  destruct H as (ts & ls & lis & ps & wt & wl & wli & wp & H). cbv zeta in H.
  destruct H as (-> & -> & _).
  rewrite deref_insert in *.
  destruct (attach_lookup (deref h df) ts ls lis ps (composite ts ls lis ps wt wl wli wp))
    as (L1 & L2 & L3 & L4 & L5 & L6).
  unfold scored. rewrite L5, L6.
  repeat split; [exact Hc|eauto|eauto|].
  repeat constructor; eauto.
Qed.

Lemma scenario_loop_reproduces (df : DataFrame) (name : string) (w : dict) (reai : list Q) :
  (forall results results',
     scenario_step df results (name, w) = OK results' ->
     results' = scenario_result results name reai) ->
  forall scs, dict_wf scs -> (name, w) ∈ scs ->
  forall results results',
    scenario_loop df scs results = OK results' ->
    results' !! (name +:+ "_REAI") = Some (FloatCol reai)
    /\ results' !! (name +:+ "_rank") = Some (IntCol (astype_int (rank_desc_min reai))).
Proof.
  intros Hstep. unfold dict_wf.
  induction scs as [|[n w'] scs IH]; intros Hnd Hin results results' H.
  - apply elem_of_nil in Hin. destruct Hin.
  - cbn [scenario_loop] in H. apply bind_OK in H as (r1 & H1 & H).
    simpl in Hnd. apply NoDup_cons in Hnd. destruct Hnd as [Hn Hnd].
    apply elem_of_cons in Hin. destruct Hin as [[= <- <-]|Hin].
    + apply Hstep in H1. subst r1.
      assert (Hfresh : forall n' w'', (n', w'') ∈ scs -> name <> n').
      { intros n' w'' Hin' <-. apply Hn.
        apply (list_elem_of_fmap_2 fst) in Hin'. exact Hin'. }
      split.
      * rewrite (scenario_loop_other df scs (name +:+ "_REAI")) with (results := scenario_result results name reai) (results' := results').
        -- unfold scenario_result.
           rewrite lookup_insert_ne by (intros E; symmetry in E; exact (REAI_name_ne_rank_name _ _ E)).
           apply lookup_insert_eq.
        -- intros n' w'' Hin'. split.
           ++ intros E. apply column_name_inj in E. exact (Hfresh _ _ Hin' E).
           ++ apply REAI_name_ne_rank_name.
        -- exact H.
      * rewrite (scenario_loop_other df scs (name +:+ "_rank")) with (results := scenario_result results name reai) (results' := results').
        -- unfold scenario_result. apply lookup_insert_eq.
        -- intros n' w'' Hin'. split.
           ++ intros E. symmetry in E. exact (REAI_name_ne_rank_name _ _ E).
           ++ intros E. apply column_name_inj in E. exact (Hfresh _ _ Hin' E).
        -- exact H.
    + exact (IH Hnd Hin _ _ H).
Qed.




(** ** Summary statistics *)




(** ** One score per region *)

Lemma to_float_length (name : string) (c : column) (v : list Q) :
  to_float name c = OK v -> length v = column_length c.
Proof.
  destruct c; simpl; intros H; try discriminate; injection H as <-;
    rewrite ?length_map; reflexivity.
Qed.

Lemma df_getitem_length (n : nat) (df : DataFrame) (name : string) (c : column)
    (v : list Q) :
  df_wf n df -> df_getitem df name = OK c -> to_float name c = OK v -> length v = n.
Proof.
  unfold df_getitem. intros Hwf Hc Hv.
  destruct (df !! name) as [c'|] eqn:E; [|discriminate]. injection Hc as ->.
  rewrite (to_float_length _ _ _ Hv). exact (Hwf _ _ E).
Qed.

Lemma df_wf_insert (n : nat) (df : DataFrame) (name : string) (c : column) :
  df_wf n df -> column_length c = n -> df_wf n (<[name := c]> df).
Proof.
  intros Hwf Hc name' c' H.
  destruct (decide (name = name')) as [->|Hne].
  - rewrite lookup_insert_eq in H. injection H as <-. exact Hc.
  - rewrite lookup_insert_ne in H by exact Hne. exact (Hwf _ _ H).
Qed.

Ltac series_lengths :=
  unfold composite, series_div, series_add, series_mul, series_sub, series_rsub;
  repeat first [ rewrite length_map | rewrite length_zip_with
               | rewrite normalize_score_length ].

Lemma calculate_transportation_score_length n self df s :
  df_wf n df -> calculate_transportation_score self df = OK s -> length s = n.
Proof.
  unfold calculate_transportation_score. intros Hwf H.
  repeat step_result H. injection H as <-.
  pose proof (df_getitem_length _ _ _ _ _ Hwf Hget Hget0).
  pose proof (df_getitem_length _ _ _ _ _ Hwf Hget1 Hget2).
  pose proof (df_getitem_length _ _ _ _ _ Hwf Hget3 Hget4).
  series_lengths. lia.
Qed.

Lemma calculate_labor_market_score_length n self df s :
  df_wf n df -> calculate_labor_market_score self df = OK s -> length s = n.
Proof.
  unfold calculate_labor_market_score. intros Hwf H.
  repeat step_result H. injection H as <-.
  pose proof (df_getitem_length _ _ _ _ _ Hwf Hget Hget0).
  pose proof (df_getitem_length _ _ _ _ _ Hwf Hget1 Hget2).
  pose proof (df_getitem_length _ _ _ _ _ Hwf Hget3 Hget4).
  series_lengths. lia.
Qed.

Lemma calculate_licensing_score_length n self df s :
  df_wf n df -> calculate_licensing_score self df = OK s -> length s = n.
Proof.
  unfold calculate_licensing_score. intros Hwf H.
  repeat step_result H. injection H as <-.
  pose proof (df_getitem_length _ _ _ _ _ Hwf Hget Hget0).
  series_lengths. lia.
Qed.

Lemma calculate_policy_score_length n self df s :
  df_wf n df -> calculate_policy_score self df = OK s -> length s = n.
Proof.
  unfold calculate_policy_score. intros Hwf H.
  repeat step_result H. injection H as <-.
  pose proof (df_getitem_length _ _ _ _ _ Hwf Hget Hget0).
  pose proof (df_getitem_length _ _ _ _ _ Hwf Hget1 Hget2).
  series_lengths. lia.
Qed.

Lemma rank_length (s : list Q) : length (astype_int (rank_desc_min s)) = length s.
Proof. unfold astype_int, rank_desc_min. rewrite !length_map. reflexivity. Qed.

(** On a frame of [n] rows, [calculate_reai] leaves a frame of [n] rows:
    each derived column has one entry per region. *)
Lemma calculate_reai_wf (n : nat) (self : REAICalculator) (df r : ref) (h h' : store) :
  df_wf n (deref h df) ->
  calculate_reai self df h = (OK r, h') ->
  df_wf n (deref h' r).
Proof.
  intros Hwf H. apply calculate_reai_OK in H.
  destruct H as (ts & ls & lis & ps & wt & wl & wli & wp & H). cbv zeta in H.
  destruct H as (-> & -> & Ht & Hl & Hli & Hp & _).
  rewrite deref_insert.
  apply calculate_transportation_score_length with (n := n) in Ht; [|exact Hwf].
  pose proof (df_wf_insert n _ "transportation_score" (FloatCol ts) Hwf Ht) as Hwf1.
  apply calculate_labor_market_score_length with (n := n) in Hl; [|exact Hwf1].
  pose proof (df_wf_insert n _ "labor_market_score" (FloatCol ls) Hwf1 Hl) as Hwf2.
  apply calculate_licensing_score_length with (n := n) in Hli; [|exact Hwf2].
  pose proof (df_wf_insert n _ "licensing_score" (FloatCol lis) Hwf2 Hli) as Hwf3.
  apply calculate_policy_score_length with (n := n) in Hp; [|exact Hwf3].
  pose proof (df_wf_insert n _ "policy_score" (FloatCol ps) Hwf3 Hp) as Hwf4.
  assert (Hreai : length (composite ts ls lis ps wt wl wli wp) = n)
    by (series_lengths; lia).
  unfold attach. apply df_wf_insert; [apply df_wf_insert; assumption|].
  simpl. rewrite rank_length. exact Hreai.
Qed.

(** * Further properties *)

(** ** More on the normalizer *)


Lemma fold_max_attained (t : list Q) (x : Q) :
  Exists (fun v => v == fold_left Qmax t x) (x :: t).
Proof.
  revert x. induction t as [|y t IH]; intros x; simpl.
  - left. reflexivity.
  - specialize (IH (Qmax x y)).
    apply Exists_cons in IH. destruct IH as [IH|IH].
    + destruct (Q.max_spec x y) as [[_ E]|[_ E]].
      * right. left. rewrite <- IH. symmetry. exact E.
      * left. rewrite <- IH. symmetry. exact E.
    + right. right. exact IH.
Qed.


Lemma series_max_attained (s : list Q) (hi : Q) :
  series_max s = Some hi -> Exists (fun v => v == hi) s.
Proof.
  destruct s as [|x t]; simpl; intros H; inversion H; subst.
  apply fold_max_attained.
Qed.


















Section Affine.
Variables a b : Q.
Hypothesis Ha : ~ a == 0.



End Affine.







(** ** The scorers, evaluated *)

Lemma column_problem_None (df : DataFrame) (name : string) :
  column_problem df name = None ->
  exists c, df_getitem df name = OK c /\ to_float name c = OK (num df name).
Proof.
  unfold column_problem, df_getitem, num.
  destruct (df !! name) as [c|]; [|discriminate].
  destruct (to_float name c) as [v|e] eqn:E; [|discriminate].
  intros _. exists c. auto.
Qed.

Lemma column_problem_Some (df : DataFrame) (name : string) (e : exn) :
  column_problem df name = Some e ->
  df_getitem df name = Error e
  \/ exists c, df_getitem df name = OK c /\ to_float name c = Error e.
Proof.
  unfold column_problem, df_getitem.
  destruct (df !! name) as [c|]; [|intros [= <-]; left; reflexivity].
  destruct (to_float name c) as [v|e'] eqn:E; [discriminate|].
  intros [= <-]. right. exists c. auto.
Qed.

(** Step through the column reads of a scorer. *)
Ltac read_columns :=
  repeat match goal with
    | |- context [column_problem ?df ?name] =>
        let E := fresh "E" in
        destruct (column_problem df name) as [?|] eqn:E;
        [ apply column_problem_Some in E as [E|(? & E & ?)];
          rewrite E; simpl; try reflexivity;
          match goal with H : to_float _ _ = Error _ |- _ => rewrite H; reflexivity end
        | apply column_problem_None in E as (? & E & ?); rewrite E; simpl;
          match goal with H : to_float _ _ = OK _ |- _ => rewrite H; clear H; simpl end ]
    end.

Lemma calculate_transportation_score_eval (self : REAICalculator) (df : DataFrame) :
  calculate_transportation_score self df =
  match first_problem df transportation_inputs with
  | Some e => Error e
  | None =>
      OK (series_div
            (series_add
               (series_add
                  (normalize_score (series_rsub 100 (num df "pct_no_vehicle")) false)
                  (normalize_score (num df "avg_commute_time") true))
               (normalize_score (num df "pct_broadband") false)) 3)
  end.
Proof.
  unfold calculate_transportation_score, transportation_inputs. cbn [first_problem].
  read_columns. reflexivity.
Qed.

Lemma calculate_labor_market_score_eval (self : REAICalculator) (df : DataFrame) :
  calculate_labor_market_score self df =
  match first_problem df labor_market_inputs with
  | Some e => Error e
  | None =>
      OK (series_add
            (series_add
               (series_mul (normalize_score (num df "unemployment_rate") true) 0.40)
               (series_mul (normalize_score (num df "employment_growth") false) 0.30))
            (series_mul (normalize_score (num df "poverty_rate") true) 0.30))
  end.
Proof.
  unfold calculate_labor_market_score, labor_market_inputs. cbn [first_problem].
  read_columns. reflexivity.
Qed.

Lemma calculate_licensing_score_eval (self : REAICalculator) (df : DataFrame) :
  calculate_licensing_score self df =
  match first_problem df licensing_inputs with
  | Some e => Error e
  | None => OK (normalize_score (num df "licensing_burden_index") true)
  end.
Proof.
  unfold calculate_licensing_score, licensing_inputs. cbn [first_problem].
  read_columns. reflexivity.
Qed.

Lemma calculate_policy_score_eval (self : REAICalculator) (df : DataFrame) :
  calculate_policy_score self df =
  match first_problem df policy_inputs with
  | Some e => Error e
  | None =>
      OK (series_div
            (series_add (normalize_score (num df "ban_the_box_score") false)
                        (normalize_score (num df "fair_chance_score") false)) 2)
  end.
Proof.
  unfold calculate_policy_score, policy_inputs. cbn [first_problem].
  read_columns. reflexivity.
Qed.

(** ** [calculate_reai], evaluated *)

Lemma column_problem_insert (df : DataFrame) (key name : string) (c : column) :
  key <> name -> column_problem (<[key := c]> df) name = column_problem df name.
Proof. intros Hne. unfold column_problem. rewrite lookup_insert_ne by exact Hne. reflexivity. Qed.

Lemma num_insert (df : DataFrame) (key name : string) (c : column) :
  key <> name -> num (<[key := c]> df) name = num df name.
Proof. intros Hne. unfold num. rewrite lookup_insert_ne by exact Hne. reflexivity. Qed.

Lemma first_problem_insert (df : DataFrame) (key : string) (c : column) (names : list string) :
  key ∉ names -> first_problem (<[key := c]> df) names = first_problem df names.
Proof.
  induction names as [|name rest IH]; intros Hk; simpl; [reflexivity|].
  apply not_elem_of_cons in Hk. destruct Hk as [Hne Hk].
  rewrite column_problem_insert by exact Hne. rewrite IH by exact Hk. reflexivity.
Qed.

(** The scorers read raw columns only: a derived column does not change
    their result. *)
Lemma scorers_ignore_derived (self : REAICalculator) (df : DataFrame) (key : string)
    (c : column) :
  key ∈ derived_columns ->
  calculate_transportation_score self (<[key := c]> df)
  = calculate_transportation_score self df
  /\ calculate_labor_market_score self (<[key := c]> df)
     = calculate_labor_market_score self df
  /\ calculate_licensing_score self (<[key := c]> df)
     = calculate_licensing_score self df
  /\ calculate_policy_score self (<[key := c]> df)
     = calculate_policy_score self df.
Proof.
  intros Hk.
  rewrite !calculate_transportation_score_eval, !calculate_labor_market_score_eval,
    !calculate_licensing_score_eval, !calculate_policy_score_eval.
  unfold derived_columns in Hk.
  repeat (apply elem_of_cons in Hk; destruct Hk as [->|Hk]);
    try (apply elem_of_nil in Hk; destruct Hk);
    (rewrite !first_problem_insert by
        (unfold transportation_inputs, labor_market_inputs, licensing_inputs,
           policy_inputs; not_among));
    (rewrite !num_insert by discriminate); auto.
Qed.

Lemma calculate_reai_eval (self : REAICalculator) (df : ref) (h : store) :
  calculate_reai self df h =
  let d := deref h df in
  match calculate_transportation_score self d with
  | Error e => (Error e, h)
  | OK ts =>
    let d1 := <["transportation_score" := FloatCol ts]> d in
    match calculate_labor_market_score self d with
    | Error e => (Error e, <[df := d1]> h)
    | OK ls =>
      let d2 := <["labor_market_score" := FloatCol ls]> d1 in
      match calculate_licensing_score self d with
      | Error e => (Error e, <[df := d2]> h)
      | OK lis =>
        let d3 := <["licensing_score" := FloatCol lis]> d2 in
        match calculate_policy_score self d with
        | Error e => (Error e, <[df := d3]> h)
        | OK ps =>
          let d4 := <["policy_score" := FloatCol ps]> d3 in
          match component_weights (weights self) with
          | Error e => (Error e, <[df := d4]> h)
          | OK (wt, wl, wli, wp) =>
              (OK df, <[df := attach d ts ls lis ps (composite ts ls lis ps wt wl wli wp)]> h)
          end
        end
      end
    end
  end.
Proof.
  cbv zeta. unfold calculate_reai.
  cbv [mbind M_mbind M_bind reading df_setitem mret M_mret M_ret].
  destruct (calculate_transportation_score self (deref h df)) as [ts|e]; [|reflexivity].
  rewrite !deref_insert.
  destruct (scorers_ignore_derived self (deref h df) "transportation_score" (FloatCol ts))
    as (_ & -> & _ & _); [unfold derived_columns; repeat constructor|].
  destruct (calculate_labor_market_score self (deref h df)) as [ls|e]; [|reflexivity].
  rewrite !insert_insert_eq, !deref_insert.
  destruct (scorers_ignore_derived self
              (<["transportation_score" := FloatCol ts]> (deref h df))
              "labor_market_score" (FloatCol ls))
    as (_ & _ & -> & _); [unfold derived_columns; repeat constructor|].
  destruct (scorers_ignore_derived self (deref h df) "transportation_score" (FloatCol ts))
    as (_ & _ & -> & _); [unfold derived_columns; repeat constructor|].
  destruct (calculate_licensing_score self (deref h df)) as [lis|e]; [|reflexivity].
  rewrite !insert_insert_eq, !deref_insert.
  destruct (scorers_ignore_derived self
              (<["labor_market_score" := FloatCol ls]>
                 (<["transportation_score" := FloatCol ts]> (deref h df)))
              "licensing_score" (FloatCol lis))
    as (_ & _ & _ & ->); [unfold derived_columns; repeat constructor|].
  destruct (scorers_ignore_derived self
              (<["transportation_score" := FloatCol ts]> (deref h df))
              "labor_market_score" (FloatCol ls))
    as (_ & _ & _ & ->); [unfold derived_columns; repeat constructor|].
  destruct (scorers_ignore_derived self (deref h df) "transportation_score" (FloatCol ts))
    as (_ & _ & _ & ->); [unfold derived_columns; repeat constructor|].
  destruct (calculate_policy_score self (deref h df)) as [ps|e]; [|reflexivity].
  rewrite !insert_insert_eq, !deref_insert.
  unfold df_getitem, component_weights.
  repeat (rewrite ?lookup_insert_eq, ?lookup_insert_ne by done).
  cbn [mbind result_bind bind to_float].
  destruct (getitem (weights self) "transportation") as [wt|e]; [|reflexivity].
  cbn [mbind result_bind bind to_float].
  destruct (getitem (weights self) "labor_market") as [wl|e]; [|reflexivity].
  cbn [mbind result_bind bind to_float].
  destruct (getitem (weights self) "licensing") as [wli|e]; [|reflexivity].
  cbn [mbind result_bind bind to_float].
  destruct (getitem (weights self) "policy") as [wp|e]; [|reflexivity].
  cbn [mbind result_bind bind to_float].
  rewrite !insert_insert_eq, !deref_insert.
  rewrite lookup_insert_eq. cbn [mbind result_bind bind to_float].
  rewrite !insert_insert_eq. reflexivity.
Qed.

(** A successful call, with the scorers read on the frame as it was. *)
Lemma calculate_reai_OK_raw (self : REAICalculator) (df r : ref) (h h' : store) :
  calculate_reai self df h = (OK r, h') ->
  exists ts ls lis ps wt wl wli wp,
    calculate_transportation_score self (deref h df) = OK ts
    /\ calculate_labor_market_score self (deref h df) = OK ls
    /\ calculate_licensing_score self (deref h df) = OK lis
    /\ calculate_policy_score self (deref h df) = OK ps
    /\ component_weights (weights self) = OK (wt, wl, wli, wp)
    /\ r = df
    /\ h' = <[df := attach (deref h df) ts ls lis ps (composite ts ls lis ps wt wl wli wp)]> h.
Proof.
  rewrite calculate_reai_eval. cbv zeta.
  destruct (calculate_transportation_score self (deref h df)) as [ts|e]; [|discriminate].
  destruct (calculate_labor_market_score self (deref h df)) as [ls|e]; [|discriminate].
  destruct (calculate_licensing_score self (deref h df)) as [lis|e]; [|discriminate].
  destruct (calculate_policy_score self (deref h df)) as [ps|e]; [|discriminate].
  destruct (component_weights (weights self)) as [[[[wt wl] wli] wp]|e]; [|discriminate].
  intros [= <- <-]. exists ts, ls, lis, ps, wt, wl, wli, wp. repeat split.
Qed.

Lemma component_weights_OK (w : dict) (wt wl wli wp : Q) :
  component_weights w = OK (wt, wl, wli, wp) <->
  getitem w "transportation" = OK wt /\ getitem w "labor_market" = OK wl
  /\ getitem w "licensing" = OK wli /\ getitem w "policy" = OK wp.
Proof.
  unfold component_weights. split.
  - intros H. repeat step_result H. injection H as <- <- <- <-. auto.
  - intros (-> & -> & -> & ->). reflexivity.
Qed.

Lemma derived_columns_cases (name : string) :
  name ∈ derived_columns ->
  name = "transportation_score"%string \/ name = "labor_market_score"%string
  \/ name = "licensing_score"%string \/ name = "policy_score"%string
  \/ name = "REAI"%string \/ name = "REAI_rank"%string.
Proof.
  unfold derived_columns. intros Hk.
  repeat (apply elem_of_cons in Hk; destruct Hk as [->|Hk]; [tauto|]).
  apply elem_of_nil in Hk. destruct Hk.
Qed.

(** Attaching the derived columns twice leaves the later ones. *)
Lemma attach_attach (d : DataFrame) (ts ls lis ps reai ts' ls' lis' ps' reai' : list Q) :
  attach (attach d ts ls lis ps reai) ts' ls' lis' ps' reai'
  = attach d ts' ls' lis' ps' reai'.
Proof.
  apply map_eq. intros name.
  destruct (decide (name ∈ derived_columns)) as [Hin|Hout].
  - destruct (attach_lookup (attach d ts ls lis ps reai) ts' ls' lis' ps' reai')
      as (A1 & A2 & A3 & A4 & A5 & A6).
    destruct (attach_lookup d ts' ls' lis' ps' reai') as (B1 & B2 & B3 & B4 & B5 & B6).
    apply derived_columns_cases in Hin.
    destruct Hin as [->|[->|[->|[->|[->| ->]]]]]; congruence.
  - rewrite !attach_lookup_other by exact Hout. reflexivity.
Qed.

Lemma scorers_ignore_attach (self : REAICalculator) (d : DataFrame)
    (ts ls lis ps reai : list Q) :
  calculate_transportation_score self (attach d ts ls lis ps reai)
  = calculate_transportation_score self d
  /\ calculate_labor_market_score self (attach d ts ls lis ps reai)
     = calculate_labor_market_score self d
  /\ calculate_licensing_score self (attach d ts ls lis ps reai)
     = calculate_licensing_score self d
  /\ calculate_policy_score self (attach d ts ls lis ps reai)
     = calculate_policy_score self d.
Proof.
  unfold attach.
  assert (H : forall k c m, k ∈ derived_columns ->
            calculate_transportation_score self (<[k := c]> m)
            = calculate_transportation_score self m
            /\ calculate_labor_market_score self (<[k := c]> m)
               = calculate_labor_market_score self m
            /\ calculate_licensing_score self (<[k := c]> m)
               = calculate_licensing_score self m
            /\ calculate_policy_score self (<[k := c]> m)
               = calculate_policy_score self m)
    by (intros; apply scorers_ignore_derived; assumption).
  repeat match goal with
    | |- context [calculate_transportation_score self (<[?k := ?c]> ?m)] =>
        let Hk := fresh in
        assert (Hk : k ∈ derived_columns) by (unfold derived_columns; repeat constructor);
        destruct (H k c m Hk) as (-> & -> & -> & ->); clear Hk
    end.
  auto.
Qed.

(** X6. Scoring a frame a second time with the same engine changes
    nothing: the call succeeds again and leaves the store as the first call
    left it. *)
Theorem calculate_reai_idempotent (self : REAICalculator) (df r : ref) (h h' : store) :
  calculate_reai self df h = (OK r, h') ->
  calculate_reai self df h' = (OK df, h').
Proof.
  intros H. apply calculate_reai_OK_raw in H.
  destruct H as (ts & ls & lis & ps & wt & wl & wli & wp & Ht & Hl & Hli & Hp & Hw & _ & ->).
  rewrite calculate_reai_eval. cbv zeta. rewrite deref_insert.
  destruct (scorers_ignore_attach self (deref h df) ts ls lis ps
              (composite ts ls lis ps wt wl wli wp)) as (-> & -> & -> & ->).
  rewrite Ht, Hl, Hli, Hp, Hw.
  rewrite attach_attach, insert_insert_eq. reflexivity.
Qed.

Lemma calculate_reai_idempotent_witness :
  calculate_reai the_default 0%nat mixed_store = (OK 0%nat, mixed_scored)
  /\ calculate_reai the_default 0%nat mixed_scored = (OK 0%nat, mixed_scored).
Proof.
  split; [exact mixed_run|].
  exact (calculate_reai_idempotent the_default 0%nat 0%nat mixed_store mixed_scored
           mixed_run).
Defined.

(** ** Which exception, and what it leaves behind *)









Example calculate_reai_failure_example :
  qred_col <$> (deref (calculate_reai the_default 0%nat no_poverty_store).2 0%nat
                !! "transportation_score")
  = Some (FloatCol [100; 0; 100])
  /\ deref (calculate_reai the_default 0%nat no_poverty_store).2 0%nat
     !! "labor_market_score" = None.
Proof. vm_compute. repeat split. Qed.



(** ** A region that is better placed scores at least as high *)











(** ** The composite as a weighted mean *)




(** ** Range of the ranks *)

Lemma count_above_le_length (x : Q) (l : list Q) : (count_above x l <= length l)%nat.
Proof.
  induction l as [|y t IH]; simpl; [lia|]. destruct (Qle_bool y x); lia.
Qed.

Lemma count_above_lt_length (x : Q) (l : list Q) :
  x ∈ l -> (count_above x l < length l)%nat.
Proof.
  induction l as [|y t IH]; intros Hin; [apply elem_of_nil in Hin; destruct Hin|].
  apply elem_of_cons in Hin. simpl. destruct Hin as [->|Hin].
  - assert (E : Qle_bool y y = true) by (apply Qle_bool_iff; lra).
    rewrite E. pose proof (count_above_le_length y t). lia.
  - specialize (IH Hin). destruct (Qle_bool y x); lia.
Qed.

Lemma count_above_zero_iff (x : Q) (l : list Q) :
  count_above x l = 0%nat <-> Forall (fun v => v <= x) l.
Proof.
  split; [|apply count_above_zero].
  induction l as [|y t IH]; simpl; intros H; constructor.
  - destruct (Qle_bool y x) eqn:E; [apply Qle_bool_iff; exact E | lia].
  - apply IH. destruct (Qle_bool y x); lia.
Qed.

(** X12. The ranks run from 1 to the number of regions.  A region has rank 1
    exactly when no region has a higher composite, and on a frame with at
    least one region some region has rank 1. *)
Theorem rank_range (self : REAICalculator) (df r : ref) (h h' : store) :
  calculate_reai self df h = (OK r, h') ->
  exists reai ranks,
    deref h' r !! "REAI" = Some (FloatCol reai)
    /\ deref h' r !! "REAI_rank" = Some (IntCol ranks)
    /\ length ranks = length reai
    /\ (forall i ri, ranks !! i = Some ri -> (1 <= ri <= Z.of_nat (length reai))%Z)
    /\ (forall i a ri, reai !! i = Some a -> ranks !! i = Some ri ->
        (ri = 1%Z <-> Forall (fun b => b <= a) reai))
    /\ (reai <> [] -> 1%Z ∈ ranks).
Proof.
  intros Hrun. apply calculate_reai_OK_raw in Hrun.
  destruct Hrun as (ts & ls & lis & ps & wt & wl & wli & wp
                    & _ & _ & _ & _ & _ & -> & ->).
  set (reai := composite ts ls lis ps wt wl wli wp).
  rewrite deref_insert.
  destruct (attach_lookup (deref h df) ts ls lis ps reai)
    as (_ & _ & _ & _ & L5 & L6).
  exists reai, (astype_int (rank_desc_min reai)).
  split; [exact L5|]. split; [exact L6|].
  rewrite rank_desc_min_spec. change (map ?f reai) with (f <$> reai).
  split; [apply length_fmap|].
  assert (Hlk : forall i ri,
            ((fun v => Z.of_nat (S (count_above v reai))) <$> reai) !! i = Some ri ->
            exists a, reai !! i = Some a /\ ri = Z.of_nat (S (count_above a reai))).
  { intros i ri H. rewrite list_lookup_fmap in H.
    destruct (reai !! i) as [a|]; [|discriminate]. injection H as <-. eauto. }
  split; [|split].
  - intros i ri H. destruct (Hlk i ri H) as (a & Ha & ->).
    assert (count_above a reai < length reai)%nat.
    { apply count_above_lt_length, list_elem_of_lookup. eauto. }
    lia.
  - intros i a ri Ha H. destruct (Hlk i ri H) as (a' & Ha' & ->).
    rewrite Ha in Ha'. injection Ha' as <-.
    rewrite <- count_above_zero_iff. lia.
  - intros Hne.
    destruct (series_max reai) as [hi|] eqn:Hhi.
    2:{ destruct reai; [congruence | discriminate]. }
    pose proof (series_max_upper _ _ Hhi) as U.
    apply series_max_attained, Exists_exists in Hhi as (a & Ha & Ea).
    apply list_elem_of_fmap. exists a. split; [|exact Ha].
    assert (E : count_above a reai = 0%nat).
    { apply count_above_zero_iff. eapply Forall_impl; [exact U|].
      simpl. intros; lra. }
    rewrite E. reflexivity.
Qed.

Lemma rank_range_witness :
  calculate_reai the_default 0%nat mixed_store = (OK 0%nat, mixed_scored)
  /\ exists ranks,
       deref mixed_scored 0%nat !! "REAI_rank" = Some (IntCol ranks)
       /\ forall i ri, ranks !! i = Some ri -> (1 <= ri <= 3)%Z.
Proof.
  split; [exact mixed_run|].
  destruct (rank_range the_default 0%nat 0%nat mixed_store mixed_scored mixed_run)
    as (reai & ranks & L5 & L6 & Hlen & Hb & _).
  exists ranks. split; [exact L6|].
  assert (Hn : length reai = 3%nat).
  { rewrite <- Hlen. vm_compute in L6. injection L6 as <-. reflexivity. }
  rewrite Hn in Hb. exact Hb.
Defined.

(** X13. When no two regions have the same composite, no two regions have
    the same rank: the ranks are the numbers 1 to n, each given once. *)
Theorem distinct_composites_rank_once (self : REAICalculator) (df r : ref) (h h' : store)
    (reai : list Q) :
  calculate_reai self df h = (OK r, h') ->
  deref h' r !! "REAI" = Some (FloatCol reai) ->
  (forall i j a b, reai !! i = Some a -> reai !! j = Some b -> a == b -> i = j) ->
  exists ranks,
    deref h' r !! "REAI_rank" = Some (IntCol ranks)
    /\ NoDup ranks
    /\ ranks ≡ₚ (Z.of_nat <$> seq 1 (length reai)).
Proof.
  intros Hrun Hreai Hdistinct. apply calculate_reai_OK_raw in Hrun.
  destruct Hrun as (ts & ls & lis & ps & wt & wl & wli & wp
                    & _ & _ & _ & _ & _ & -> & ->).
  rewrite deref_insert in *.
  destruct (attach_lookup (deref h df) ts ls lis ps
              (composite ts ls lis ps wt wl wli wp))
    as (_ & _ & _ & _ & L5 & L6).
  rewrite L5 in Hreai. injection Hreai as <-.
  set (reai := composite ts ls lis ps wt wl wli wp) in *.
  exists (astype_int (rank_desc_min reai)). split; [exact L6|].
  rewrite rank_desc_min_spec. change (map ?f reai) with (f <$> reai).
  set (ranks := (fun v => Z.of_nat (S (count_above v reai))) <$> reai).
  assert (Hnd : NoDup ranks).
  { apply NoDup_alt. intros i j x Hi Hj. unfold ranks in Hi, Hj.
    rewrite list_lookup_fmap in Hi, Hj.
    destruct (reai !! i) as [a|] eqn:Ha; [|discriminate].
    destruct (reai !! j) as [b|] eqn:Hb; [|discriminate].
    simpl in Hi, Hj. injection Hi as Hi. injection Hj as Hj.
    apply (Hdistinct i j a b Ha Hb).
    destruct (Qlt_le_dec a b) as [Hab|Hba].
    - assert (count_above b reai < count_above a reai)%nat; [|lia].
      apply count_above_strict; [exact Hab|]. apply list_elem_of_lookup. eauto.
    - destruct (Qlt_le_dec b a) as [Hlt|Hle]; [|lra].
      assert (count_above a reai < count_above b reai)%nat; [|lia].
      apply count_above_strict; [exact Hlt|]. apply list_elem_of_lookup. eauto. }
  split; [exact Hnd|].
  apply submseteq_length_Permutation.
  - apply NoDup_submseteq; [exact Hnd|].
    intros x Hx. unfold ranks in Hx. apply list_elem_of_fmap in Hx as (a & -> & Ha).
    apply list_elem_of_fmap. exists (S (count_above a reai)). split; [reflexivity|].
    apply elem_of_seq. pose proof (count_above_lt_length a reai Ha). lia.
  - unfold ranks. rewrite !length_fmap, length_seq. lia.
Qed.

Lemma mixed_reai_distinct :
  forall i j a b, mixed_reai !! i = Some a -> mixed_reai !! j = Some b -> a == b -> i = j.
Proof.
  assert (E : map Qred mixed_reai = [75 # 2; 85 # 2; 185 # 2]) by (vm_compute; reflexivity).
  intros i j a b Ha Hb Hab.
  assert (Hred : forall k v, mixed_reai !! k = Some v ->
            [75 # 2; 85 # 2; 185 # 2] !! k = Some (Qred v)).
  { intros k v Hv. rewrite <- E. change (map Qred mixed_reai) with (Qred <$> mixed_reai).
    rewrite list_lookup_fmap, Hv. reflexivity. }
  apply Hred in Ha, Hb.
  assert (Hq : Qred a = Qred b) by (apply Qred_complete; exact Hab).
  rewrite Hq in Ha.
  destruct i as [|[|[|i]]], j as [|[|[|j]]]; simpl in Ha, Hb;
    try reflexivity; try discriminate; rewrite <- Ha in Hb; discriminate.
Qed.

Lemma distinct_composites_rank_once_witness :
  calculate_reai the_default 0%nat mixed_store = (OK 0%nat, mixed_scored)
  /\ deref mixed_scored 0%nat !! "REAI" = Some (FloatCol mixed_reai)
  /\ (forall i j a b, mixed_reai !! i = Some a -> mixed_reai !! j = Some b ->
      a == b -> i = j)
  /\ exists ranks,
       deref mixed_scored 0%nat !! "REAI_rank" = Some (IntCol ranks)
       /\ ranks ≡ₚ (Z.of_nat <$> seq 1 (length mixed_reai)).
Proof.
  assert (Hreai : deref mixed_scored 0%nat !! "REAI" = Some (FloatCol mixed_reai))
    by (vm_compute; reflexivity).
  split; [exact mixed_run|]. split; [exact Hreai|]. split; [exact mixed_reai_distinct|].
  destruct (distinct_composites_rank_once the_default 0%nat 0%nat mixed_store mixed_scored
              mixed_reai mixed_run Hreai mixed_reai_distinct)
    as (ranks & L6 & _ & Hperm).
  exists ranks. auto.
Defined.

(** X14. [calculate_reai] keeps the number of rows: on a frame whose columns
    all have [n] entries, each derived column has [n] entries too. *)
Theorem calculate_reai_row_count (n : nat) (self : REAICalculator) (df r : ref)
    (h h' : store) :
  df_wf n (deref h df) ->
  calculate_reai self df h = (OK r, h') ->
  df_wf n (deref h' r)
  /\ forall name, name ∈ derived_columns ->
     exists c, deref h' r !! name = Some c /\ column_length c = n.
Proof.
  intros Hwf Hrun.
  pose proof (calculate_reai_wf n self df r h h' Hwf Hrun) as Hwf'.
  split; [exact Hwf'|].
  apply calculate_reai_OK_raw in Hrun.
  destruct Hrun as (ts & ls & lis & ps & wt & wl & wli & wp
                    & _ & _ & _ & _ & _ & -> & ->).
  rewrite deref_insert in *.
  destruct (attach_lookup (deref h df) ts ls lis ps
              (composite ts ls lis ps wt wl wli wp))
    as (L1 & L2 & L3 & L4 & L5 & L6).
  intros name Hin. apply derived_columns_cases in Hin.
  destruct Hin as [->|[->|[->|[->|[->| ->]]]]];
    eexists; (split; [eassumption|]); eapply Hwf'; eassumption.
Qed.

Lemma mixed_counties_wf : df_wf 3 (deref mixed_store 0%nat).
Proof.
  intros name c H.
  assert (E : deref mixed_store 0%nat = mixed_counties) by reflexivity.
  rewrite E in H. unfold mixed_counties in H.
  apply (elem_of_list_to_map_2 (M := gmap string)) in H.
  repeat (apply elem_of_cons in H; destruct H as [[= -> ->]|H]; [reflexivity|]).
  apply elem_of_nil in H. destruct H.
Qed.

Lemma calculate_reai_row_count_witness :
  df_wf 3 (deref mixed_store 0%nat)
  /\ calculate_reai the_default 0%nat mixed_store = (OK 0%nat, mixed_scored)
  /\ df_wf 3 (deref mixed_scored 0%nat).
Proof.
  split; [exact mixed_counties_wf|]. split; [exact mixed_run|].
  exact (proj1 (calculate_reai_row_count 3 the_default 0%nat 0%nat mixed_store
                  mixed_scored mixed_counties_wf mixed_run)).
Defined.

(** ** More on the sensitivity analysis *)

Lemma numeric_num (df : DataFrame) (name : string) (c : column) (l : list Q) :
  df !! name = Some c -> to_float name c = OK l -> num df name = l.
Proof. intros H1 H2. unfold num. rewrite H1, H2. reflexivity. Qed.

Lemma getitem_is_Some (w : dict) (k : string) (v : Q) :
  getitem w k = OK v -> is_Some (dict_get w k).
Proof. unfold getitem. destruct (dict_get w k); [eauto | discriminate]. Qed.

(** What one scenario does to [results], in terms of the frame's columns. *)
Lemma scenario_step_OK_num (df results results' : DataFrame) (name : string) (w : dict) :
  scenario_step df results (name, w) = OK results' ->
  valid_weights w /\ Forall (numeric df) component_score_columns
  /\ exists wt wl wli wp,
       component_weights w = OK (wt, wl, wli, wp)
       /\ results' = scenario_result results name (scenario_composite df wt wl wli wp).
Proof.
  intros H. apply scenario_step_OK in H as (Hv & H).
  destruct H as (ct & cl & cli & cp & t & l & li & p & wt & wl & wli & wp & H).
  destruct H as (C1 & F1 & C2 & F2 & C3 & F3 & C4 & F4 & G1 & G2 & G3 & G4 & ->).
  split; [exact Hv|]. split.
  - unfold component_score_columns, numeric. repeat constructor; eauto.
  - exists wt, wl, wli, wp. split; [apply component_weights_OK; auto|].
    unfold scenario_composite.
    rewrite (numeric_num _ _ _ _ C1 F1), (numeric_num _ _ _ _ C2 F2),
      (numeric_num _ _ _ _ C3 F3), (numeric_num _ _ _ _ C4 F4). reflexivity.
Qed.

Lemma scenario_loop_OK_Forall (df : DataFrame) (scs : scenarios) :
  forall results results',
    scenario_loop df scs results = OK results' ->
    Forall (fun sc => valid_weights sc.2 /\ over_components sc.2) scs
    /\ (scs <> [] -> Forall (numeric df) component_score_columns).
Proof.
  induction scs as [|[name w] scs IH]; intros results results' H.
  - split; [constructor | congruence].
  - cbn [scenario_loop] in H. apply bind_OK in H as (r1 & Hstep & H).
    destruct (IH _ _ H) as [IH1 _].
    apply scenario_step_OK_num in Hstep as (Hv & Hnum & wt & wl & wli & wp & Hw & _).
    split; [|intros _; exact Hnum].
    constructor; [|exact IH1]. split; [exact Hv|].
    apply component_weights_OK in Hw as (G1 & G2 & G3 & G4).
    unfold over_components.
    repeat constructor; eapply getitem_is_Some; eassumption.
Qed.



Lemma sensitivity_analysis_OK_loop (self : REAICalculator) (df results : DataFrame)
    (scs : scenarios) :
  sensitivity_analysis self df scs = OK results ->
  exists c1 c2 c3,
    df !! "county" = Some c1 /\ df !! "REAI" = Some c2 /\ df !! "REAI_rank" = Some c3
    /\ scenario_loop df scs
         (<["base_rank" := c3]> (<["base_REAI" := c2]> (<["county" := c1]> ∅)))
       = OK results.
Proof.
  unfold sensitivity_analysis, df_getitem. intros H.
  destruct (df !! "county") as [c1|]; [|discriminate].
  destruct (df !! "REAI") as [c2|]; [|discriminate].
  destruct (df !! "REAI_rank") as [c3|]; [|discriminate].
  simpl in H. eauto 10.
Qed.

Lemma county_not_scenario_column (name : string) :
  "county"%string <> name +:+ "_REAI" /\ "county"%string <> name +:+ "_rank".
Proof.
  split; intros E;
    apply (app_suffix_inv "c" name "ounty") in E; try reflexivity;
    destruct E as [_ E]; discriminate.
Qed.

Lemma base_not_scenario_column (name : string) :
  name <> "base"%string ->
  ("base_REAI"%string <> name +:+ "_REAI" /\ "base_REAI"%string <> name +:+ "_rank")
  /\ ("base_rank"%string <> name +:+ "_REAI" /\ "base_rank"%string <> name +:+ "_rank").
Proof.
  intros Hne. repeat split; intros E;
    apply (app_suffix_inv "base" name) in E; try reflexivity;
    destruct E as [E1 E2]; solve [discriminate | congruence].
Qed.

(** X16. The table of a successful analysis carries the frame's county
    column.  When no scenario is called "base", its [base_REAI] and
    [base_rank] columns are the frame's [REAI] and [REAI_rank]; a scenario
    called "base" writes its own composite and rank over them. *)
Theorem sensitivity_analysis_base_columns
    (self : REAICalculator) (df results : DataFrame) (scs : scenarios) :
  sensitivity_analysis self df scs = OK results ->
  results !! "county" = df !! "county"
  /\ ("base"%string ∉ keys scs ->
      results !! "base_REAI" = df !! "REAI"
      /\ results !! "base_rank" = df !! "REAI_rank")
  /\ (forall w, dict_wf scs -> ("base"%string, w) ∈ scs ->
      exists wt wl wli wp,
        component_weights w = OK (wt, wl, wli, wp)
        /\ results !! "base_REAI" = Some (FloatCol (scenario_composite df wt wl wli wp))
        /\ results !! "base_rank"
           = Some (IntCol (astype_int (rank_desc_min (scenario_composite df wt wl wli wp))))).
Proof.
  intros H. apply sensitivity_analysis_OK_loop in H.
  destruct H as (c1 & c2 & c3 & H1 & H2 & H3 & Hloop).
  split; [|split].
  - assert (Hk : forall name (w : dict), (name, w) ∈ scs ->
              "county"%string <> name +:+ "_REAI" /\ "county"%string <> name +:+ "_rank")
      by (intros name w _; apply county_not_scenario_column).
    rewrite (scenario_loop_other df scs "county" Hk _ _ Hloop).
    rewrite !lookup_insert_ne by done. rewrite lookup_insert_eq. symmetry. exact H1.
  - intros Hbase.
    assert (Hne : forall name w, (name, w) ∈ scs -> name <> "base"%string).
    { intros name w Hin ->. apply Hbase. unfold keys.
      apply (list_elem_of_fmap_2 fst) in Hin. exact Hin. }
    assert (Hk1 : forall name (w : dict), (name, w) ∈ scs ->
              "base_REAI"%string <> name +:+ "_REAI"
              /\ "base_REAI"%string <> name +:+ "_rank")
      by (intros name w Hin; apply base_not_scenario_column; eapply Hne; eassumption).
    assert (Hk2 : forall name (w : dict), (name, w) ∈ scs ->
              "base_rank"%string <> name +:+ "_REAI"
              /\ "base_rank"%string <> name +:+ "_rank")
      by (intros name w Hin; apply base_not_scenario_column; eapply Hne; eassumption).
    rewrite (scenario_loop_other df scs "base_REAI" Hk1 _ _ Hloop).
    rewrite (scenario_loop_other df scs "base_rank" Hk2 _ _ Hloop).
    rewrite lookup_insert_ne by done. rewrite !lookup_insert_eq. split; congruence.
  - intros w Hwf Hin.
    assert (Hstep : exists wt wl wli wp,
              component_weights w = OK (wt, wl, wli, wp)
              /\ forall results0 results',
                   scenario_step df results0 ("base"%string, w) = OK results' ->
                   results' = scenario_result results0 "base"
                                (scenario_composite df wt wl wli wp)).
    { destruct (scenario_loop_OK_Forall df scs _ _ Hloop) as [Hall _].
      rewrite Forall_forall in Hall. destruct (Hall _ Hin) as [_ Hover]. simpl in Hover.
      unfold over_components in Hover.
      repeat match goal with
             | H : Forall _ (_ :: _) |- _ => apply Forall_cons in H; destruct H as [[? ?] H]
             end.
      eexists _, _, _, _. split.
      - apply component_weights_OK. unfold getitem.
        repeat match goal with E : dict_get _ _ = Some _ |- _ => rewrite E; clear E end.
        repeat split.
      - intros results0 results' Hs.
        apply scenario_step_OK_num in Hs as (_ & _ & wt & wl & wli & wp & Hw & ->).
        apply component_weights_OK in Hw as (G1 & G2 & G3 & G4).
        unfold getitem in *.
        repeat match goal with
               | E : dict_get _ _ = Some _, G : context [dict_get _ _] |- _ =>
                   rewrite E in G
               end.
        congruence. }
    destruct Hstep as (wt & wl & wli & wp & Hw & Hstep).
    exists wt, wl, wli, wp. split; [exact Hw|].
    exact (scenario_loop_reproduces df "base" w _ Hstep scs Hwf Hin _ _ Hloop).
Qed.

Lemma mixed_scored_is_scored : scored (deref mixed_scored 0%nat).
Proof.
  apply (calculate_reai_scored the_default 0%nat 0%nat mixed_store mixed_scored mixed_run).
  eexists. vm_compute. reflexivity.
Qed.

Lemma script_scenarios_ok :
  Forall (fun sc => valid_weights sc.2 /\ over_components sc.2) script_scenarios.
Proof.
  unfold script_scenarios, valid_weights, over_components.
  repeat constructor; simpl; eauto.
Qed.

Lemma script_scenarios_wf : dict_wf script_scenarios.
Proof.
  unfold dict_wf. simpl.
  repeat (apply NoDup_cons; split; [not_among|]). apply NoDup_nil_2.
Qed.

Lemma script_run :
  exists results,
    sensitivity_analysis the_default (deref mixed_scored 0%nat) script_scenarios
    = OK results.
Proof.
  destruct (sensitivity_analysis_scored the_default _ script_scenarios
              mixed_scored_is_scored) as [res0 ->].
  apply scenario_loop_runs; [exact mixed_scored_is_scored | exact script_scenarios_ok].
Qed.

Lemma sensitivity_analysis_base_columns_witness :
  exists results,
    sensitivity_analysis the_default (deref mixed_scored 0%nat) script_scenarios
    = OK results
    /\ results !! "county" = deref mixed_scored 0%nat !! "county".
Proof.
  destruct script_run as [results Hrun]. exists results. split; [exact Hrun|].
  exact (proj1 (sensitivity_analysis_base_columns the_default _ results
                  script_scenarios Hrun)).
Defined.

(** X17. Each scenario is computed from its own weights alone.  In the
    table of a successful analysis, the composite column of a scenario is
    the weighted sum of the frame's four score columns under that scenario's
    weights, and its rank column is the competition ranking of that
    composite; they are the columns the analysis of that scenario alone
    returns. *)
Theorem sensitivity_scenarios_independent
    (self : REAICalculator) (df results : DataFrame) (scs : scenarios)
    (name : string) (w : dict) :
  sensitivity_analysis self df scs = OK results ->
  dict_wf scs -> (name, w) ∈ scs ->
  exists wt wl wli wp alone,
    component_weights w = OK (wt, wl, wli, wp)
    /\ results !! (name +:+ "_REAI")
       = Some (FloatCol (scenario_composite df wt wl wli wp))
    /\ results !! (name +:+ "_rank")
       = Some (IntCol (map (fun v => Z.of_nat (1 + count_above v
                                                  (scenario_composite df wt wl wli wp)))
                           (scenario_composite df wt wl wli wp)))
    /\ sensitivity_analysis self df [(name, w)] = OK alone
    /\ alone !! (name +:+ "_REAI") = results !! (name +:+ "_REAI")
    /\ alone !! (name +:+ "_rank") = results !! (name +:+ "_rank").
Proof.
  intros H Hwf Hin. apply sensitivity_analysis_OK_loop in H.
  destruct H as (c1 & c2 & c3 & H1 & H2 & H3 & Hloop).
  destruct (scenario_loop_OK_Forall df scs _ _ Hloop) as [Hall Hnum].
  assert (Hne : scs <> []) by (intros ->; apply elem_of_nil in Hin; exact Hin).
  specialize (Hnum Hne).
  rewrite Forall_forall in Hall. destruct (Hall _ Hin) as [Hv Hover]. simpl in Hv, Hover.
  assert (Hscored : scored df).
  { unfold scored. rewrite H1, H2, H3. repeat split; eauto. }
  destruct (scenario_step_runs df ∅ name w Hscored Hv Hover) as [r0 Hr0].
  apply scenario_step_OK_num in Hr0 as (_ & _ & wt & wl & wli & wp & Hw & _).
  assert (Hstep : forall results0 results',
            scenario_step df results0 (name, w) = OK results' ->
            results' = scenario_result results0 name (scenario_composite df wt wl wli wp)).
  { intros results0 results' Hs.
    apply scenario_step_OK_num in Hs as (_ & _ & wt' & wl' & wli' & wp' & Hw' & ->).
    rewrite Hw in Hw'. injection Hw' as <- <- <- <-. reflexivity. }
  destruct (scenario_loop_reproduces df name w _ Hstep scs Hwf Hin _ _ Hloop) as [R1 R2].
  destruct (scenario_loop_runs df [(name, w)] Hscored) with
    (results := (<["base_rank" := c3]> (<["base_REAI" := c2]> (<["county" := c1]> ∅))
                 : DataFrame)) as [alone Halone].
  { constructor; [split; assumption | constructor]. }
  assert (Hwf1 : dict_wf [(name, w)]).
  { unfold dict_wf. simpl. apply NoDup_singleton. }
  destruct (scenario_loop_reproduces df name w _ Hstep [(name, w)] Hwf1
              ltac:(left) _ _ Halone) as [A1 A2].
  exists wt, wl, wli, wp, alone.
  split; [exact Hw|]. split; [exact R1|].
  split; [rewrite R2, rank_desc_min_spec; reflexivity|].
  split.
  - unfold sensitivity_analysis, df_getitem. rewrite H1, H2, H3. simpl. exact Halone.
  - split; congruence.
Qed.

Lemma sensitivity_scenarios_independent_witness :
  exists results,
    sensitivity_analysis the_default (deref mixed_scored 0%nat) script_scenarios
    = OK results
    /\ dict_wf script_scenarios
    /\ exists w alone,
         ("policy_focused"%string, w) ∈ script_scenarios
         /\ sensitivity_analysis the_default (deref mixed_scored 0%nat)
              [("policy_focused"%string, w)] = OK alone
         /\ alone !! "policy_focused_REAI" = results !! "policy_focused_REAI".
Proof.
  destruct script_run as [results Hrun]. exists results.
  split; [exact Hrun|]. split; [exact script_scenarios_wf|].
  assert (Hin : ("policy_focused"%string,
                 [("transportation"%string, 0.25); ("labor_market"%string, 0.25);
                  ("licensing"%string, 0.20); ("policy"%string, 0.30)])
                ∈ script_scenarios) by (unfold script_scenarios; repeat constructor).
  destruct (sensitivity_scenarios_independent the_default _ results script_scenarios
              _ _ Hrun script_scenarios_wf Hin)
    as (wt & wl & wli & wp & alone & _ & _ & _ & Ha & E1 & _).
  eexists _, alone. split; [exact Hin|]. split; [exact Ha | exact E1].
Defined.

(** ** More on the summary statistics *)

Lemma mapM_result_ext {A B : Type} (f g : A -> result B) (l : list A) :
  (forall x, x ∈ l -> f x = g x) -> mapM f l = mapM g l.
Proof.
  induction l as [|x l IH]; intros H; [reflexivity|].
  cbn [mapM]. rewrite (H x) by left.
  rewrite IH; [reflexivity|]. intros y Hy. apply H. right. exact Hy.
Qed.

(** Reading every key of a dict yields its values, in insertion order. *)
Lemma mapM_getitem_keys (w : dict) :
  dict_wf w -> mapM (getitem w) (keys w) = OK (values w).
Proof.
  unfold dict_wf, keys, values. induction w as [|[k v] w IH]; intros Hnd; [reflexivity|].
  simpl in Hnd. apply NoDup_cons in Hnd. destruct Hnd as [Hk Hnd].
  cbn [map fst snd mapM].
  assert (E : getitem ((k, v) :: w) k = OK v).
  { unfold getitem. cbn [dict_get]. rewrite String.eqb_refl. reflexivity. }
  rewrite E. cbn [mbind result_bind bind].
  rewrite (mapM_result_ext (getitem ((k, v) :: w)) (getitem w)).
  - rewrite (IH Hnd). reflexivity.
  - intros k' Hk'. unfold getitem. cbn [dict_get].
    destruct (String.eqb k k') eqn:E'; [|reflexivity].
    apply String.eqb_eq in E'. subst. contradiction.
Qed.

(** X18. After [calculate_reai], [get_summary_statistics] succeeds exactly
    when the engine's weight mapping has four entries.  The weight column
    then holds 1.0 followed by the engine's weights in the insertion order
    of the mapping, row by row; with any other number of entries the call
    raises [ValueError] for the length of the column. *)
Theorem summary_statistics_weight_column
    (self : REAICalculator) (df r : ref) (h h' : store) :
  dict_wf (weights self) ->
  calculate_reai self df h = (OK r, h') ->
  (length (weights self) = 4%nat ->
   exists summary,
     get_summary_statistics self (deref h' r) = OK summary
     /\ index summary = score_rows
     /\ map fst (columns summary)
        = ["weight"; "mean"; "std"; "min"; "25%"; "50%"; "75%"; "max"]%string
     /\ dict_get (columns summary) "weight"
        = Some (map Num (1.0 :: values (weights self))))
  /\ (length (weights self) <> 4%nat ->
      get_summary_statistics self (deref h' r)
      = Error (length_mismatch (S (length (weights self))) 5)).
Proof.
  intros Hwf Hrun. apply calculate_reai_OK_raw in Hrun.
  destruct Hrun as (ts & ls & lis & ps & wt & wl & wli & wp
                    & _ & _ & _ & _ & _ & -> & ->).
  set (reai := composite ts ls lis ps wt wl wli wp).
  rewrite deref_insert.
  destruct (attach_lookup (deref h df) ts ls lis ps reai)
    as (L1 & L2 & L3 & L4 & L5 & L6).
  unfold get_summary_statistics. cbv zeta.
  change (mapM (fun k => getitem (weights self) k) (keys (weights self)))
    with (mapM (getitem (weights self)) (keys (weights self))).
  rewrite (mapM_getitem_keys _ Hwf).
  cbn [mapM]. unfold df_getitem.
  rewrite L1, L2, L3, L4, L5.
  cbn [mbind result_bind bind mret result_ret].
  set (sel := [("REAI"%string, FloatCol reai); ("transportation_score"%string, FloatCol ts);
               ("labor_market_score"%string, FloatCol ls);
               ("licensing_score"%string, FloatCol lis);
               ("policy_score"%string, FloatCol ps)]).
  assert (Hidx : index (describe_T sel) = score_rows) by reflexivity.
  assert (Hlen : length (map Num ([1.0] ++ values (weights self)))
                 = S (length (weights self))).
  { unfold values. rewrite length_map. simpl. rewrite length_map. reflexivity. }
  unfold summary_setitem. rewrite Hidx, Hlen.
  change (length score_rows) with 5%nat.
  split; intros Hn.
  - rewrite Hn. cbn [Nat.eqb negb mbind result_bind bind].
    eexists. split; [reflexivity|]. repeat split.
  - destruct (Nat.eqb_spec (S (length (weights self))) 5) as [E|E]; [lia|].
    reflexivity.
Qed.

Lemma five_weights_wf : dict_wf (weights five_keys).
Proof.
  unfold dict_wf. simpl.
  repeat (apply NoDup_cons; split; [not_among|]). apply NoDup_nil_2.
Qed.

Lemma five_keys_run :
  calculate_reai five_keys 0%nat mixed_store
  = (OK 0%nat, (calculate_reai five_keys 0%nat mixed_store).2).
Proof. apply run_OK. vm_compute. reflexivity. Qed.

Lemma summary_statistics_weight_column_witness :
  __init__ (Some five_weights) = OK five_keys
  /\ dict_wf (weights five_keys)
  /\ calculate_reai five_keys 0%nat mixed_store
     = (OK 0%nat, (calculate_reai five_keys 0%nat mixed_store).2)
  /\ length (weights five_keys) <> 4%nat
  /\ get_summary_statistics five_keys
       (deref (calculate_reai five_keys 0%nat mixed_store).2 0%nat)
     = Error (length_mismatch 6 5).
Proof.
  assert (Hn : length (weights five_keys) <> 4%nat) by discriminate.
  split; [reflexivity|]. split; [exact five_weights_wf|]. split; [exact five_keys_run|].
  split; [exact Hn|].
  exact (proj2 (summary_statistics_weight_column five_keys 0%nat 0%nat mixed_store _
                  five_weights_wf five_keys_run) Hn).
Defined.
